(* ===================================================================== *)
(* ViewerBot.py: the tracking state machine of the Twitch viewer bot      *)
(* ===================================================================== *)
(* A shallow embedding of src/ViewerBot.py.

   Module-level globals (active_links, user_appearance_count, raiders,
   bot_usernames) and the chat client's active_users set are the fields of
   one [State] record; every handler is a function on that record, in a
   small state-and-exception monad.

   The collaborators are modelled through what the program observes:
   - output_channel.send(text) appends text to the [output] log.  Every
     call site wraps send in `except discord.errors.HTTPException`, which
     only logs, so a failed and a delivered send leave the program in the
     same state; the log holds the texts handed to send.  The output
     channel is taken to exist.
   - twitch_bot.join_channels / part_channels append to [chat_requests].
   - the HTTP fetches hand their outcome to the handler as an argument: for
     the exclusion document, the GET raising, or its answer as a status and
     what json.loads makes of the text; for the stream metadata, a viewer
     count or nothing.
   - a raid notice carries its display-name and viewer count, as Twitch
     sends them.
   - but for the fetch of the exclusion document, whose exceptions
     load_bot_usernames lets through, the collaborators raise nothing but
     what the call site catches and logs; in particular no
     ConnectionResetError reaches the cycle, whose handlers of it (lines
     195-197, 212-214) are therefore not entered.  reconnect (lines
     151-159) is modelled on its own, as far as the outcomes handed to it
     go: the interpreter's recursion limit, which ends a run of some
     thousand consecutive failures with RecursionError, is not modelled.
   - Python strings are taken as ASCII text (Twitch logins and the link
     marker are ASCII).  Past ASCII, str.split() also splits on U+0085,
     U+00A0, U+2003 and other whitespace that [PyStr.is_space] does not
     know, and str.lower() folds more than 'A'..'Z': a statement that would
     not survive such characters says [is_ascii] of the text it is about.
   A handler is taken as one step of the single-threaded event loop: what
   another handler could do while this one awaits a send or a fetch is not
   modelled.  The reporting cycle, which other deliveries do interleave
   with, is cut between its report (lines 167-214) and its clear (line
   216). *)

From Stdlib Require Import ZArith Ascii String List DecimalString.
From stdpp Require Import gmap strings list fin_maps fin_sets.

Local Open Scope string_scope.
Local Open Scope Z_scope.

(* --------------------------------------------------------------------- *)
(* Python string primitives                                               *)
(* --------------------------------------------------------------------- *)

Module PyStr.

(** code point of an ASCII character *)
Definition ord (c : ascii) : N := N_of_ascii c.

(** str.lower() on one character: 'A'..'Z' become 'a'..'z' *)
Definition lower_char (c : ascii) : ascii :=
  if ((65 <=? ord c) && (ord c <=? 90))%N
  then ascii_of_N (ord c + 32)
  else c.

(** str.lower() *)
Fixpoint lower (s : string) : string :=
  match s with
  | EmptyString => EmptyString
  | String c s' => String (lower_char c) (lower s')
  end.

(** str.isspace() on one ASCII character: \t \n \v \f \r, the four
    separators 0x1c..0x1f, and the blank *)
Definition is_space (c : ascii) : bool :=
  (((9 <=? ord c) && (ord c <=? 13))
   || ((28 <=? ord c) && (ord c <=? 32)))%N.

(** s.startswith(p) *)
Fixpoint startswith (p s : string) : bool :=
  match p, s with
  | EmptyString, _ => true
  | String a p', String b s' => if Ascii.eqb a b then startswith p' s' else false
  | String _ _, EmptyString => false
  end.

(** `sub in s` *)
Fixpoint contains (sub s : string) : bool :=
  startswith sub s
  || match s with
     | EmptyString => false
     | String _ s' => contains sub s'
     end.

(** the scan of s.split(sep) for a non-empty sep, left to right:
    [skip] characters of a separator just matched are still to be
    passed over, [cur] is the piece read so far *)
Fixpoint split_go (sep : string) (skip : nat) (cur s : string) : list string :=
  match s with
  | EmptyString => [cur]
  | String c s' =>
      match skip with
      | S k => split_go sep k cur s'
      | O =>
          if startswith sep s
          then cur :: split_go sep (Nat.pred (String.length sep)) EmptyString s'
          else split_go sep O (cur +:+ String c EmptyString) s'
      end
  end.

(** s.split(sep), sep non-empty *)
Definition split (sep s : string) : list string := split_go sep O EmptyString s.

(** the scan of s.split(): runs of whitespace separate, no empty piece *)
Fixpoint split_ws_go (cur s : string) : list string :=
  match s with
  | EmptyString => if String.eqb cur EmptyString then [] else [cur]
  | String c s' =>
      if is_space c
      then (if String.eqb cur EmptyString then split_ws_go EmptyString s'
            else cur :: split_ws_go EmptyString s')
      else split_ws_go (cur +:+ String c EmptyString) s'
  end.

(** s.split() *)
Definition split_ws (s : string) : list string := split_ws_go EmptyString s.

(** sep.join(l) *)
Definition join (sep : string) (l : list string) : string := String.concat sep l.

(** str(n) for an int *)
Definition of_int (n : Z) : string := NilZero.string_of_int (Z.to_int n).

(** a string of whitespace only: empty, or s.isspace() *)
Fixpoint all_space (s : string) : bool :=
  match s with
  | EmptyString => true
  | String c s' => is_space c && all_space s'
  end.

End PyStr.

(** l[-1]: the last element, IndexError (None) on the empty list *)
Definition index_last {A} (l : list A) : option A := last l.

(** l[0]: the first element, IndexError (None) on the empty list *)
Definition index_first {A} (l : list A) : option A := head l.

(** on_message line 260 and on_message_delete line 278:
    content.split('twitch.tv/')[-1].split()[0] *)
Definition extract_username (content : string) : option string :=
  match index_last (PyStr.split "twitch.tv/" content) with
  | None => None
  | Some tail => index_first (PyStr.split_ws tail)
  end.

(* --------------------------------------------------------------------- *)
(* Python dict with insertion order (user_appearance_count)               *)
(* --------------------------------------------------------------------- *)

Module PyDict.

(** a dict from str to int; the list is d.items(), in insertion order *)
Definition t : Type := list (string * Z).

(** d.get(k, default) *)
Fixpoint get (d : t) (k : string) (default : Z) : Z :=
  match d with
  | [] => default
  | (k', v) :: d' => if String.eqb k k' then v else get d' k default
  end.

(** d[k] = v: an existing key keeps its place, a new key goes last *)
Fixpoint set (d : t) (k : string) (v : Z) : t :=
  match d with
  | [] => [(k, v)]
  | (k', v') :: d' =>
      if String.eqb k k' then (k', v) :: d' else (k', v') :: set d' k v
  end.

End PyDict.

(* --------------------------------------------------------------------- *)
(* Program state                                                          *)
(* --------------------------------------------------------------------- *)

(** requests made to the chat client *)
Inductive chat_request : Type :=
| Join (channel : string)
| Part (channel : string).

(** a task handle: asyncio.create_task numbers the tasks it returns *)
Definition task : Type := nat.

Record State : Type := mkState {
  active_links : gmap string task;          (* line 78 *)
  user_appearance_count : PyDict.t;         (* line 81 *)
  raiders : gset string;                    (* line 84 *)
  bot_usernames : list string;              (* line 69 *)
  active_users : gset string;               (* twitch_bot.active_users, line 91 *)
  output : list string;                     (* texts handed to output_channel.send *)
  chat_requests : list chat_request;        (* join_channels / part_channels *)
  tasks_created : nat;                      (* number of create_task calls *)
  tasks_cancelled : list task               (* task.cancel() calls *)
}.

(** the state after module initialisation, with the list loaded at line 69 *)
Definition initial_state (bots : list string) : State :=
  mkState ∅ [] ∅ bots ∅ [] [] O [].

Definition set_active_links (f : gmap string task → gmap string task) (s : State) : State :=
  mkState (f (active_links s)) (user_appearance_count s) (raiders s) (bot_usernames s)
          (active_users s) (output s) (chat_requests s) (tasks_created s) (tasks_cancelled s).

Definition set_user_appearance_count (f : PyDict.t → PyDict.t) (s : State) : State :=
  mkState (active_links s) (f (user_appearance_count s)) (raiders s) (bot_usernames s)
          (active_users s) (output s) (chat_requests s) (tasks_created s) (tasks_cancelled s).

Definition set_raiders (f : gset string → gset string) (s : State) : State :=
  mkState (active_links s) (user_appearance_count s) (f (raiders s)) (bot_usernames s)
          (active_users s) (output s) (chat_requests s) (tasks_created s) (tasks_cancelled s).

Definition set_bot_usernames (f : list string → list string) (s : State) : State :=
  mkState (active_links s) (user_appearance_count s) (raiders s) (f (bot_usernames s))
          (active_users s) (output s) (chat_requests s) (tasks_created s) (tasks_cancelled s).

Definition set_active_users (f : gset string → gset string) (s : State) : State :=
  mkState (active_links s) (user_appearance_count s) (raiders s) (bot_usernames s)
          (f (active_users s)) (output s) (chat_requests s) (tasks_created s) (tasks_cancelled s).

Definition set_output (f : list string → list string) (s : State) : State :=
  mkState (active_links s) (user_appearance_count s) (raiders s) (bot_usernames s)
          (active_users s) (f (output s)) (chat_requests s) (tasks_created s) (tasks_cancelled s).

Definition set_chat_requests (f : list chat_request → list chat_request) (s : State) : State :=
  mkState (active_links s) (user_appearance_count s) (raiders s) (bot_usernames s)
          (active_users s) (output s) (f (chat_requests s)) (tasks_created s) (tasks_cancelled s).

Definition set_tasks_created (f : nat → nat) (s : State) : State :=
  mkState (active_links s) (user_appearance_count s) (raiders s) (bot_usernames s)
          (active_users s) (output s) (chat_requests s) (f (tasks_created s)) (tasks_cancelled s).

Definition set_tasks_cancelled (f : list task → list task) (s : State) : State :=
  mkState (active_links s) (user_appearance_count s) (raiders s) (bot_usernames s)
          (active_users s) (output s) (chat_requests s) (tasks_created s) (f (tasks_cancelled s)).

(* --------------------------------------------------------------------- *)
(* Handlers as state transformers that may raise                          *)
(* --------------------------------------------------------------------- *)

(** the exceptions that leave a handler: the list index of line 260 / 278,
    and the two that load_bot_usernames lets through, aiohttp.ClientError
    out of session.get (line 47) and AttributeError out of data.get (line
    53) *)
Inductive exn : Type :=
| IndexError
| AiohttpClientError
| AttributeError.

(** what a Python function hands back: no return statement gives None *)
Inductive pyval : Type :=
| PyNone
| PyBool (b : bool).

Inductive outcome (A : Type) : Type :=
| Returned (a : A) (s : State)
| Raised (e : exn) (s : State).
Arguments Returned {A} a s.
Arguments Raised {A} e s.

Definition M (A : Type) : Type := State → outcome A.

#[global] Instance M_ret : MRet M := λ A a s, Returned a s.
#[global] Instance M_bind : MBind M := λ A B f m s,
  match m s with
  | Returned a s' => f a s'
  | Raised e s' => Raised e s'
  end.
#[global] Instance M_throw : MThrow exn M := λ A e s, Raised e s.

Definition gets {A} (f : State → A) : M A := λ s, Returned (f s) s.
Definition modify (f : State → State) : M unit := λ s, Returned tt (f s).

(** the state a handler leaves behind, whether it returned or raised *)
Definition final_state {A} (o : outcome A) : State :=
  match o with
  | Returned _ s => s
  | Raised _ s => s
  end.

(** the value handed back, if the handler returned *)
Definition returned_value {A} (o : outcome A) : option A :=
  match o with
  | Returned a _ => Some a
  | Raised _ _ => None
  end.

(** await output_channel.send(text), inside try/except HTTPException *)
Definition send (text : string) : M unit :=
  modify (set_output (λ out, (out ++ [text])%list)).

(** await twitch_bot.join_channels([channel]) *)
Definition join_channels (channel : string) : M unit :=
  modify (set_chat_requests (λ q, (q ++ [Join channel])%list)).

(** await twitch_bot.part_channels([channel]) *)
Definition part_channels (channel : string) : M unit :=
  modify (set_chat_requests (λ q, (q ++ [Part channel])%list)).

(** asyncio.create_task(...): a fresh handle *)
Definition create_task : M task :=
  n ← gets tasks_created;
  modify (set_tasks_created S);;
  mret n.

(** task.cancel() *)
Definition cancel (t : task) : M unit :=
  modify (set_tasks_cancelled (λ l, (l ++ [t])%list)).

(** `twitch_username in active_links` *)
Definition is_tracked (twitch_username : string) (s : State) : bool :=
  bool_decide (is_Some (active_links s !! twitch_username)).

(* --------------------------------------------------------------------- *)
(* Exclusion list fetch (lines 45-59)                                     *)
(* --------------------------------------------------------------------- *)

(** what json.loads makes of the response text: a JSONDecodeError, or the
    decoded object, of which the program reads the key bot_usernames; the
    value under that key is taken to be a list of strings, as the document
    served has it *)
Inductive payload : Type :=
| Malformed
| Document (bot_usernames_key : option (list string)).

(** the answer of session.get(bot_usernames_url) *)
Record response : Type := mkResponse {
  status : Z;
  text : payload
}.

(** how the fetch of lines 46-53 ends: session.get raises an
    aiohttp.ClientError (no connection, no name resolution); or the answer
    has status 200 and a text that is JSON but no object (a list, a string,
    a number, true, false or null), on which data.get raises
    AttributeError; or an answer [r] whose text, if its status is 200, is
    not JSON or decodes to an object *)
Inductive fetch : Type :=
| GetFails
| JsonNotObject
| Responded (r : response).

(** an answer stands for the fetch that ends with it *)
Coercion Responded : response >-> fetch.

(** load_bot_usernames, lines 45-59 *)
Definition load_bot_usernames (f : fetch) : M (list string) :=
  match f with
  | GetFails => mthrow AiohttpClientError          (* line 47, no handler *)
  | JsonNotObject => mthrow AttributeError         (* line 53, no handler *)
  | Responded r =>
      if status r =? 200 then
        match text r with
        | Document (Some names) => mret names      (* data.get('bot_usernames', []) *)
        | Document None => mret []
        | Malformed => mret []                     (* except json.JSONDecodeError *)
        end
      else mret []
  end.

(* --------------------------------------------------------------------- *)
(* TwitchBot (lines 87-159)                                               *)
(* --------------------------------------------------------------------- *)

(** the tags of a USERNOTICE that event_usernotice reads *)
Record notice_tags : Type := mkTags {
  msg_id : option string;              (* tags.get('msg-id') *)
  display_name : string;               (* tags.get('display-name') *)
  msg_param_viewerCount : string       (* tags.get('msg-param-viewerCount') *)
}.

(** event_message, lines 104-109; no command is registered, so
    handle_commands has nothing to run *)
Definition event_message (author_name : string) (echo : bool) : M pyval :=
  if echo then mret PyNone
  else
    modify (set_active_users (λ users, {[author_name]} ∪ users));;
    mret PyNone.

(** event_usernotice, lines 111-135 *)
Definition event_usernotice (tags : notice_tags) : M pyval :=
  if bool_decide (msg_id tags = Some "raid") then
    let raider := display_name tags in
    let viewers := msg_param_viewerCount tags in
    modify (set_raiders (λ rs, {[raider]} ∪ rs));;
    send ("Thanks " +:+ raider +:+ " for the raid with " +:+ viewers +:+ " viewers!");;
    mret PyNone
  else mret PyNone.

(** get_active_users, lines 141-142: list(self.active_users).  Python
    leaves the order of a set unspecified; [elements] is the enumeration
    of the model. *)
Definition get_active_users : M (list string) :=
  gets (λ s, elements (active_users s)).

(** the sleep of line 158 before attempt + 1 *)
Definition backoff_delay (attempt : Z) : Z := Z.min (10 * attempt) 60.

(** reconnect, lines 151-159.  [connects] are the outcomes of the
    successive close-and-connect attempts (true: no exception); the result
    is the list of sleeps made, in order.  Each failure nests a further
    call (line 159); the RecursionError with which the interpreter ends a
    nesting of some thousand calls is not modelled, so the model is that of
    the code for runs of failures shorter than that. *)
Fixpoint reconnect (connects : list bool) (attempt : Z) : list Z :=
  match connects with
  | [] => []
  | true :: _ => []
  | false :: rest => backoff_delay attempt :: reconnect rest (attempt + 1)
  end.

(* --------------------------------------------------------------------- *)
(* The reporting cycle (lines 165-219)                                    *)
(* --------------------------------------------------------------------- *)

(** line 172: [user for user in active_users if user.lower() not in bot_usernames] *)
Definition filtered_users (active bots : list string) : list string :=
  filter (λ user, PyStr.lower user ∉ bots) active.

(** lines 182-183 *)
Fixpoint track_appearances (users : list string) (d : PyDict.t) : PyDict.t :=
  match users with
  | [] => d
  | user :: rest =>
      track_appearances rest (PyDict.set d user (PyDict.get d user 0 + 1))
  end.

(** one pass of the loop from its test on line 167 to line 214;
    [stream_data] is the viewer count get_twitch_stream_data found, None
    when the stream is not live.  The two `except ConnectionResetError`
    clauses are not entered (see the head of the file). *)
Definition post_viewers_list_report (twitch_username : string)
    (stream_data : option Z) : M unit :=
  tracked ← gets (is_tracked twitch_username);
  if tracked : bool then
    active ← get_active_users;
    match active with
    | [] => send ("No active chat users detected for " +:+ twitch_username +:+ ".")
    | _ :: _ =>
        bots ← gets bot_usernames;
        let filtered := filtered_users active bots in
        match filtered with
        | [] => send ("No non-bot chat users detected for " +:+ twitch_username +:+ ".")
        | _ :: _ =>
            send ("Active users interacting in " +:+ twitch_username +:+ ": "
                  +:+ PyStr.join ", " filtered);;
            modify (set_user_appearance_count (track_appearances filtered))
        end
    end;;
    match stream_data with
    | Some viewer_count =>
        send (twitch_username +:+ " currently has " +:+ PyStr.of_int viewer_count
              +:+ " viewers.")
    | None => send (twitch_username +:+ " is not currently live.")
    end
  else mret tt.

(** line 216: twitch_bot.active_users.clear() *)
Definition post_viewers_list_clear : M unit :=
  modify (set_active_users (λ _, ∅)).

(** start_tracking, lines 222-232 *)
Definition start_tracking (twitch_username : string) : M unit :=
  tracked ← gets (is_tracked twitch_username);
  if negb tracked then
    t ← create_task;
    modify (set_active_links (<[twitch_username := t]>));;
    send ("Started tracking " +:+ twitch_username +:+ ".");;
    join_channels twitch_username
  else mret tt.

(* --------------------------------------------------------------------- *)
(* End-of-session summary (lines 303-348)                                 *)
(* --------------------------------------------------------------------- *)

(** line 304 *)
Definition multi_appearance_users (d : PyDict.t) : list string :=
  map fst (filter (λ item, snd item > 1) d).

(** line 305 *)
Definition single_appearance_users (d : PyDict.t) : list string :=
  map fst (filter (λ item, snd item = 1) d).

(** lines 308-318 *)
Definition single_message (d : PyDict.t) : string :=
  match single_appearance_users d with
  | [] => "No users appeared in only one list."
  | users => "Users who appeared in only one list: " +:+ PyStr.join ", " (rev users)
  end.

(** lines 321-331 *)
Definition multi_message (d : PyDict.t) : string :=
  match multi_appearance_users d with
  | [] => "No users appeared in more than one list."
  | users => "Users who appeared in multiple lists: " +:+ PyStr.join ", " (rev users)
  end.

(** lines 334-344 *)
Definition raiders_message (rs : gset string) : string :=
  match elements rs with
  | [] => "No users raided the channel."
  | names => "Users who raided the channel: " +:+ PyStr.join ", " names
  end.

(** lines 303-348 *)
Definition summarize : M unit :=
  d ← gets user_appearance_count;
  send (single_message d);;
  send (multi_message d);;
  rs ← gets raiders;
  send (raiders_message rs);;
  modify (set_user_appearance_count (λ _, []));;
  modify (set_raiders (λ _, ∅)).

(* --------------------------------------------------------------------- *)
(* Link watcher (lines 245-348)                                           *)
(* --------------------------------------------------------------------- *)

(** a message of the control surface *)
Record message : Type := mkMessage {
  author_is_self : bool;       (* message.author == client.user *)
  channel_id : Z;              (* message.channel.id *)
  content : string             (* message.content *)
}.

(** active_links.pop(twitch_username, None) *)
Definition pop_link (twitch_username : string) : M (option task) :=
  t ← gets (λ s, active_links s !! twitch_username);
  modify (set_active_links (delete twitch_username));;
  mret t.

Section LinkWatcher.

Variable TRACK_CHANNEL_ID : Z.

(** on_message, lines 246-267 *)
Definition on_message (m : message) : M pyval :=
  if author_is_self m then mret PyNone
  else if channel_id m =? TRACK_CHANNEL_ID then
    if PyStr.contains "twitch.tv" (content m) then
      match extract_username (content m) with
      | None => mthrow IndexError
      | Some twitch_username =>
          tracked ← gets (is_tracked twitch_username);
          if negb tracked then start_tracking twitch_username;; mret PyNone
          else mret PyNone
      end
    else mret PyNone
  else mret PyNone.

(** on_message_delete, lines 271-348.  A task object is truthy, so
    `if task:` asks whether pop found one.  The console clear of line 296
    is no state of the program. *)
Definition on_message_delete (m : message) (f : fetch) : M pyval :=
  if channel_id m =? TRACK_CHANNEL_ID then
    if PyStr.contains "twitch.tv" (content m) then
      match extract_username (content m) with
      | None => mthrow IndexError
      | Some twitch_username =>
          tracked ← gets (is_tracked twitch_username);
          if tracked : bool then
            popped ← pop_link twitch_username;
            match popped with
            | Some t =>
                cancel t;;
                send ("Stopped tracking " +:+ twitch_username
                      +:+ " as the link was removed.");;
                part_channels twitch_username;;
                names ← load_bot_usernames f;
                modify (set_bot_usernames (λ _, names))
            | None => mret tt
            end;;
            summarize;;
            mret PyNone
          else mret PyNone
      end
    else mret PyNone
  else mret PyNone.

(** what the event loop delivers *)
Inductive event : Type :=
| ChatMessage (author_name : string) (echo : bool)
| UserNotice (tags : notice_tags)
| MessageCreate (m : message)
| MessageDelete (m : message) (f : fetch)
| CycleReport (twitch_username : string) (stream_data : option Z)
| CycleClear (twitch_username : string).

(** one delivery.  A cancelled task runs no further: the clear of a cycle
    is taken only while its identifier is still registered. *)
Definition step (ev : event) : M pyval :=
  match ev with
  | ChatMessage author_name echo => event_message author_name echo
  | UserNotice tags => event_usernotice tags
  | MessageCreate m => on_message m
  | MessageDelete m f => on_message_delete m f
  | CycleReport u stream_data => post_viewers_list_report u stream_data;; mret PyNone
  | CycleClear u =>
      tracked ← gets (is_tracked u);
      if tracked : bool then post_viewers_list_clear;; mret PyNone else mret PyNone
  end.

(** the state after a delivery; an exception ends the handler only *)
Definition exec (s : State) (ev : event) : State := final_state (step ev s).

(** the state after a sequence of deliveries *)
Definition run (s : State) (evs : list event) : State := fold_left exec evs s.

End LinkWatcher.

(* --------------------------------------------------------------------- *)
(* Stream metadata (lines 351-389)                                        *)
(* --------------------------------------------------------------------- *)

(** how an aiohttp exchange ends for the two functions below: with an
    aiohttp.ClientError (no connection, or raise_for_status on the answer),
    or with the decoded JSON of the answer *)
Inductive http_answer (A : Type) : Type :=
| ClientError
| Answer (a : A).
Arguments ClientError {A}.
Arguments Answer {A} a.

(** an entry of the `data` array of helix/streams; the program reads its
    viewer_count (line 202) *)
Record stream : Type := mkStream {
  viewer_count : Z
}.

(** get_twitch_oauth_token, lines 374-389: data['access_token'], or None
    on a ClientError *)
Definition get_twitch_oauth_token (token_answer : http_answer string) : option string :=
  match token_answer with
  | Answer access_token => Some access_token
  | ClientError => None
  end.

(** the Authorization header of line 355; an f-string prints None as
    "None" *)
Definition authorization (token : option string) : string :=
  "Bearer " +:+ match token with
                | Some access_token => access_token
                | None => "None"
                end.

(** get_twitch_stream_data, lines 351-371.  [helix] is the streams
    endpoint: what it answers to an Authorization header and a user_login. *)
Definition get_twitch_stream_data
    (helix : string → string → http_answer (list stream))
    (token_answer : http_answer string) (username : string) : option stream :=
  match helix (authorization (get_twitch_oauth_token token_answer)) username with
  | Answer (first :: _) => Some first       (* data['data'][0] *)
  | Answer [] => None
  | ClientError => None
  end.

(** lines 199-211 after the report of the participants: the metadata are
    fetched and the viewer count, or its absence, is sent *)
Definition post_viewers_list_with_fetch
    (helix : string → string → http_answer (list stream))
    (token_answer : http_answer string) (twitch_username : string) : M unit :=
  post_viewers_list_report twitch_username
    (viewer_count <$> get_twitch_stream_data helix token_answer twitch_username).

(* --------------------------------------------------------------------- *)
(* Notions the statements use                                             *)
(* --------------------------------------------------------------------- *)

(** the names a fetch yields; load_bot_usernames neither reads nor writes
    the program state *)
Definition fetched_names (r : response) : list string :=
  default [] (returned_value (load_bot_usernames r (initial_state []))).

(** the text of the summary, lines 303-344 *)
Definition summary_messages (s : State) : list string :=
  [single_message (user_appearance_count s);
   multi_message (user_appearance_count s);
   raiders_message (raiders s)].

(** the state a stop leaves: the effects of lines 283-348, field by field *)
Definition stopped_state (u : string) (t : task) (r : response) (s : State) : State :=
  mkState (delete u (active_links s)) [] ∅ (fetched_names r) (active_users s)
          (output s ++ ("Stopped tracking " +:+ u +:+ " as the link was removed.")
                     :: summary_messages s)%list
          (chat_requests s ++ [Part u])%list
          (tasks_created s)
          (tasks_cancelled s ++ [t])%list.

(** the state a start leaves when the identifier was free, lines 226-232 *)
Definition started_state (u : string) (s : State) : State :=
  mkState (<[u := tasks_created s]> (active_links s)) (user_appearance_count s)
          (raiders s) (bot_usernames s) (active_users s)
          (output s ++ ["Started tracking " +:+ u +:+ "."])%list
          (chat_requests s ++ [Join u])%list
          (S (tasks_created s)) (tasks_cancelled s).

(** the participants a cycle run in state s reports: line 172 on the read
    of line 169 *)
Definition reported_users (s : State) : list string :=
  filtered_users (elements (active_users s)) (bot_usernames s).

(** the first message of a cycle, lines 170-194 *)
Definition report_message (u : string) (s : State) : string :=
  match elements (active_users s) with
  | [] => "No active chat users detected for " +:+ u +:+ "."
  | _ :: _ =>
      match reported_users s with
      | [] => "No non-bot chat users detected for " +:+ u +:+ "."
      | _ :: _ => "Active users interacting in " +:+ u +:+ ": "
                  +:+ PyStr.join ", " (reported_users s)
      end
  end.

(** the second message of a cycle, lines 201-211 *)
Definition stream_message (u : string) (stream_data : option Z) : string :=
  match stream_data with
  | Some viewer_count =>
      u +:+ " currently has " +:+ PyStr.of_int viewer_count +:+ " viewers."
  | None => u +:+ " is not currently live."
  end.

(** the state the report of a cycle leaves for a registered identifier *)
Definition reported_state (u : string) (stream_data : option Z) (s : State) : State :=
  mkState (active_links s)
          (track_appearances (reported_users s) (user_appearance_count s))
          (raiders s) (bot_usernames s) (active_users s)
          (output s ++ [report_message u s; stream_message u stream_data])%list
          (chat_requests s) (tasks_created s) (tasks_cancelled s).

(** record(identity) for each identity in turn: event_message of a message
    that is not an echo *)
Definition record_all (names : list string) (s : State) : State :=
  fold_left (λ s name, final_state (event_message name false s)) names s.

(** P's count in the AppearanceTally *)
Definition tally (P : string) (s : State) : Z :=
  PyDict.get (user_appearance_count s) P 0.

(** the delivery is a reporting cycle in whose filtered list P appears *)
Definition appears (P : string) (ev : event) (s : State) : bool :=
  match ev with
  | CycleReport u _ => is_tracked u s && bool_decide (P ∈ reported_users s)
  | _ => false
  end.

(** the number of reporting cycles of a run in which P appeared *)
Fixpoint appearance_cycles (track : Z) (P : string) (s : State) (evs : list event) : Z :=
  match evs with
  | [] => 0
  | ev :: rest =>
      (if appears P ev s then 1 else 0) + appearance_cycles track P (exec track s ev) rest
  end.

(** the delivery is the clear of a reporting cycle *)
Definition is_clear (ev : event) : bool :=
  match ev with
  | CycleClear _ => true
  | _ => false
  end.

(** a text of ASCII characters only *)
Fixpoint is_ascii (s : string) : bool :=
  match s with
  | EmptyString => true
  | String c s' => (PyStr.ord c <? 128)%N && is_ascii s'
  end.

(** the delivery is a deletion on the control surface *)
Definition is_delete (ev : event) : bool :=
  match ev with
  | MessageDelete _ _ => true
  | _ => false
  end.

(** the backoff as the documentation words it (the comment on line 158 and
    the specification): exponential from a base of 10 seconds, capped at 60 *)
Definition exponential_backoff (attempt : Z) : Z :=
  Z.min (10 * 2 ^ (attempt - 1)) 60.

(** a string without whitespace *)
Fixpoint no_space (s : string) : bool :=
  match s with
  | EmptyString => true
  | String c s' => negb (PyStr.is_space c) && no_space s'
  end.

(** a string that is empty or begins with whitespace: what may follow a
    word *)
Definition starts_blank (s : string) : bool :=
  match s with
  | EmptyString => true
  | String c _ => PyStr.is_space c
  end.

(** the state a chat message that is not an echo leaves, line 107 *)
Definition recorded_state (name : string) (s : State) : State :=
  set_active_users (λ users, {[name]} ∪ users) s.

(** the state a raid notice leaves, lines 121-131 *)
Definition raided_state (tags : notice_tags) (s : State) : State :=
  mkState (active_links s) (user_appearance_count s)
          ({[display_name tags]} ∪ raiders s) (bot_usernames s) (active_users s)
          (output s ++ ["Thanks " +:+ display_name tags +:+ " for the raid with "
                        +:+ msg_param_viewerCount tags +:+ " viewers!"])%list
          (chat_requests s) (tasks_created s) (tasks_cancelled s).

(** the state the clear of line 216 leaves *)
Definition cleared_state (s : State) : State :=
  set_active_users (λ _, ∅) s.

(** the state a stop leaves when its reload raises: the effects of lines
    283-292, after which the exception leaves the handler *)
Definition aborted_state (u : string) (t : task) (s : State) : State :=
  mkState (delete u (active_links s)) (user_appearance_count s) (raiders s)
          (bot_usernames s) (active_users s)
          (output s ++ ["Stopped tracking " +:+ u +:+ " as the link was removed."])%list
          (chat_requests s ++ [Part u])%list
          (tasks_created s)
          (tasks_cancelled s ++ [t])%list.

(** the exception a fetch makes load_bot_usernames raise, if any *)
Definition fetch_exception (f : fetch) : option exn :=
  match f with
  | GetFails => Some AiohttpClientError
  | JsonNotObject => Some AttributeError
  | Responded _ => None
  end.

(** what a delivery can do to the state: nothing, or the effect of one of
    the seven paths that write *)
Inductive delivery_effect (track : Z) (s : State) : event → State → Prop :=
| effect_none ev : delivery_effect track s ev s
| effect_record name :
    delivery_effect track s (ChatMessage name false) (recorded_state name s)
| effect_raid tags :
    msg_id tags = Some "raid" →
    delivery_effect track s (UserNotice tags) (raided_state tags s)
| effect_start m u :
    author_is_self m = false →
    channel_id m = track →
    extract_username (content m) = Some u →
    is_tracked u s = false →
    delivery_effect track s (MessageCreate m) (started_state u s)
| effect_stop m (r : response) u t :
    channel_id m = track →
    extract_username (content m) = Some u →
    active_links s !! u = Some t →
    delivery_effect track s (MessageDelete m r) (stopped_state u t r s)
| effect_abort m f u t :
    channel_id m = track →
    extract_username (content m) = Some u →
    active_links s !! u = Some t →
    delivery_effect track s (MessageDelete m f) (aborted_state u t s)
| effect_report u stream_data :
    is_tracked u s = true →
    delivery_effect track s (CycleReport u stream_data)
      (reported_state u stream_data s)
| effect_clear u :
    is_tracked u s = true →
    delivery_effect track s (CycleClear u) (cleared_state s).

(** the joins less the parts the chat client was asked for on a channel *)
Fixpoint joined (u : string) (requests : list chat_request) : Z :=
  match requests with
  | [] => 0
  | Join channel :: rest => (if String.eqb channel u then 1 else 0) + joined u rest
  | Part channel :: rest => (if String.eqb channel u then -1 else 0) + joined u rest
  end.

(** the task handles of the registry: each was created, none was cancelled,
    no two identifiers share one *)
Definition tasks_consistent (s : State) : Prop :=
  (∀ u t, active_links s !! u = Some t →
          (t < tasks_created s)%nat ∧ t ∉ tasks_cancelled s)
  ∧ (∀ u u' t, active_links s !! u = Some t → active_links s !! u' = Some t → u = u')
  ∧ (∀ t, t ∈ tasks_cancelled s → (t < tasks_created s)%nat).

(** the tally as a dict of counts: no key twice, every count at least 1 *)
Definition tally_well_formed (s : State) : Prop :=
  NoDup (map fst (user_appearance_count s))
  ∧ Forall (λ item, 1 ≤ snd item) (user_appearance_count s).

(** the delivery is a link to u posted on the control surface by someone
    else: the test of lines 249-260 *)
Definition starts (track : Z) (u : string) (ev : event) : bool :=
  match ev with
  | MessageCreate m =>
      negb (author_is_self m) && (channel_id m =? track)
      && PyStr.contains "twitch.tv" (content m)
      && bool_decide (extract_username (content m) = Some u)
  | _ => false
  end.

(** the delivery is the deletion of a link to u on the control surface:
    the test of lines 275-278 *)
Definition stops (track : Z) (u : string) (ev : event) : bool :=
  match ev with
  | MessageDelete m _ =>
      (channel_id m =? track)
      && PyStr.contains "twitch.tv" (content m)
      && bool_decide (extract_username (content m) = Some u)
  | _ => false
  end.

(* ===================================================================== *)
(* Properties                                                             *)
(* ===================================================================== *)

(** unfold the monad of the handlers *)
Ltac unfold_M :=
  unfold mbind, mret, mthrow, M_bind, M_ret, M_throw, gets, modify in *.

(** unfold the effects the handlers are built from *)
Ltac unfold_effects :=
  unfold summarize, pop_link, create_task, cancel, send, join_channels,
    part_channels, get_active_users, post_viewers_list_clear in *;
  unfold_M.

(** unfold the field updates and read the fields.  The states are split
    into their fields first, and the updates are then evaluated innermost
    first: unfolding a chain of updates as it stands copies the inner state
    once per field and per update. *)
Ltac unfold_setters :=
  repeat match goal with s : State |- _ => destruct s end;
  cbv [set_active_links set_user_appearance_count set_raiders
       set_bot_usernames set_active_users set_output set_chat_requests
       set_tasks_created set_tasks_cancelled
       active_links user_appearance_count raiders bot_usernames active_users
       output chat_requests tasks_created tasks_cancelled] in *.

(* --------------------------------------------------------------------- *)
(* Strings                                                                *)
(* --------------------------------------------------------------------- *)

Module PyStrFacts.
Import PyStr.

Lemma app_cons c s t : String c s +:+ t = String c (s +:+ t).
Proof. reflexivity. Qed.

Lemma app_nil_l s : EmptyString +:+ s = s.
Proof. reflexivity. Qed.

Lemma app_assoc s t u : (s +:+ t) +:+ u = s +:+ (t +:+ u).
Proof. induction s as [|c s IH]; [reflexivity|]. rewrite !app_cons. by f_equal. Qed.

Lemma app_length s t :
  String.length (s +:+ t) = (String.length s + String.length t)%nat.
Proof. induction s as [|c s IH]; [reflexivity|]. rewrite app_cons. simpl. by f_equal. Qed.

Lemma lower_char_idemp c : lower_char (lower_char c) = lower_char c.
Proof. by destruct c as [[] [] [] [] [] [] [] []]. Qed.

Lemma lower_idemp s : lower (lower s) = lower s.
Proof. induction s as [|c s IH]; simpl; [done|]. by rewrite lower_char_idemp, IH. Qed.

Lemma space_not_t c : is_space c = true → Ascii.eqb "t" c = false.
Proof. destruct (Ascii.eqb_spec "t" c) as [<-|]; [discriminate|done]. Qed.

(** whitespace holds no separator: it comes back as one piece *)
Lemma split_go_blank cur ws :
  PyStr.all_space ws = true → split_go "twitch.tv/" O cur ws = [cur +:+ ws].
Proof.
  revert cur. induction ws as [|c ws IH]; intros cur Hws.
  - simpl. f_equal. clear. induction cur as [|a cur IH]; [done|].
    rewrite app_cons. by f_equal.
  - simpl in Hws. apply andb_prop in Hws as [Hc Hws].
    cbn [split_go startswith]. rewrite (space_not_t c Hc).
    rewrite (IH _ Hws), app_assoc. reflexivity.
Qed.

(** whitespace holds no word *)
Lemma split_ws_blank ws : PyStr.all_space ws = true → split_ws ws = [].
Proof.
  unfold split_ws. induction ws as [|c ws IH]; intros Hws; [done|].
  simpl in Hws. apply andb_prop in Hws as [Hc Hws].
  cbn [split_ws_go]. rewrite Hc. cbn. auto.
Qed.

(** the marker has no border: an occurrence cannot start inside another *)
Lemma marker_no_overlap pre rest :
  (0 < String.length pre < 10)%nat →
  startswith "twitch.tv/" (pre +:+ "twitch.tv/" +:+ rest) = false.
Proof.
  intros Hlen.
  do 10 (try destruct pre as [|? pre]); simpl in Hlen; try lia;
    rewrite ?app_cons, app_nil_l; cbn [startswith];
    repeat match goal with
      | |- context [Ascii.eqb ?a ?b] =>
          destruct (Ascii.eqb_spec a b); subst; cbn [startswith]; try done
      end.
Qed.

(** skipping never runs past the end of what is still to be read *)
Lemma split_go_last ws :
  PyStr.all_space ws = true → ∀ n pre skip cur,
  String.length pre = n → (skip ≤ String.length pre)%nat →
  last (split_go "twitch.tv/" skip cur (pre +:+ "twitch.tv/" +:+ ws)) = Some ws.
Proof.
  intros Hws n. induction n as [n IH] using lt_wf_ind.
  intros pre skip cur Hn Hskip. destruct pre as [|c pre].
  - simpl in Hskip. assert (skip = O) as -> by lia.
    rewrite !app_cons, !app_nil_l. cbn. rewrite (split_go_blank _ _ Hws). done.
  - rewrite app_cons. destruct skip as [|k].
    + cbn [split_go].
      destruct (startswith "twitch.tv/" (String c (pre +:+ "twitch.tv/" +:+ ws))) eqn:Hm.
      * destruct (decide (String.length (String c pre) < 10)%nat) as [Hlt|Hge].
        { rewrite <-app_cons, marker_no_overlap in Hm; [done|]. simpl in *; lia. }
        rewrite last_cons, (IH (String.length pre)); [done| |done|];
          simpl in *; lia.
      * apply (IH (String.length pre)); simpl in *; lia.
    + cbn [split_go]. apply (IH (String.length pre)); simpl in *; lia.
Qed.

Lemma contains_marker pre rest :
  contains "twitch.tv" (pre +:+ "twitch.tv/" +:+ rest) = true.
Proof.
  induction pre as [|c pre IH]; [done|].
  rewrite app_cons. cbn [contains]. rewrite IH. apply orb_true_r.
Qed.

End PyStrFacts.

(** a link with nothing but whitespace after the marker names no stream *)
Lemma extract_username_blank pre ws :
  PyStr.all_space ws = true →
  extract_username (pre +:+ "twitch.tv/" +:+ ws) = None.
Proof.
  intros Hws. unfold extract_username, index_last, PyStr.split.
  rewrite (PyStrFacts.split_go_last ws Hws _ pre O EmptyString eq_refl); [|lia].
  by rewrite PyStrFacts.split_ws_blank.
Qed.

(* --------------------------------------------------------------------- *)
(* The registry and the link watcher                                      *)
(* --------------------------------------------------------------------- *)

Lemma is_tracked_true u s :
  is_tracked u s = true ↔ ∃ t, active_links s !! u = Some t.
Proof. unfold is_tracked. rewrite bool_decide_eq_true. reflexivity. Qed.

Lemma is_tracked_false u s :
  is_tracked u s = false ↔ active_links s !! u = None.
Proof.
  unfold is_tracked. rewrite bool_decide_eq_false, <-eq_None_not_Some. reflexivity.
Qed.

Lemma load_bot_usernames_returns (r : response) s :
  load_bot_usernames r s = Returned (fetched_names r) s.
Proof.
  unfold fetched_names, load_bot_usernames.
  destruct (status r =? 200); [|done]. by destruct (text r) as [|[names|]].
Qed.

(** a fetch that ends with no answer to read makes the reload raise, the
    state untouched *)
Lemma load_bot_usernames_raises f e s :
  fetch_exception f = Some e → load_bot_usernames f s = Raised e s.
Proof. destruct f; intros [= <-]; reflexivity. Qed.

Lemma on_message_delete_tracked track m (r : response) s u t :
  channel_id m = track →
  PyStr.contains "twitch.tv" (content m) = true →
  extract_username (content m) = Some u →
  active_links s !! u = Some t →
  on_message_delete track m r s = Returned PyNone (stopped_state u t r s).
Proof.
  intros Hch Hmark Hext Hlink.
  assert (is_tracked u s = true) as Htr by (apply is_tracked_true; eauto).
  unfold on_message_delete. rewrite Hch, Z.eqb_refl, Hmark, Hext.
  unfold_effects. rewrite Htr, Hlink. rewrite load_bot_usernames_returns.
  unfold stopped_state, summary_messages. unfold_setters.
  rewrite <-!(assoc_L (++)). reflexivity.
Qed.

Lemma on_message_delete_untracked track m r s u :
  extract_username (content m) = Some u →
  is_tracked u s = false →
  on_message_delete track m r s = Returned PyNone s.
Proof.
  intros Hext Htr. unfold on_message_delete.
  destruct (channel_id m =? track); [|done].
  destruct (PyStr.contains _ _); [|done].
  rewrite Hext. unfold_M. by rewrite Htr.
Qed.

(** a stop whose reload raises: the exception leaves the handler after
    lines 283-292 *)
Lemma on_message_delete_aborted track m f e s u t :
  channel_id m = track →
  PyStr.contains "twitch.tv" (content m) = true →
  extract_username (content m) = Some u →
  active_links s !! u = Some t →
  fetch_exception f = Some e →
  on_message_delete track m f s = Raised e (aborted_state u t s).
Proof.
  intros Hch Hmark Hext Hlink Hf.
  assert (is_tracked u s = true) as Htr by (apply is_tracked_true; eauto).
  unfold on_message_delete. rewrite Hch, Z.eqb_refl, Hmark, Hext.
  unfold_effects. rewrite Htr, Hlink.
  rewrite (load_bot_usernames_raises f e) by done.
  unfold aborted_state. unfold_setters. reflexivity.
Qed.

(** whatever the handler does, what it hands back is None *)
Lemma on_message_delete_returns_none track m f s v :
  returned_value (on_message_delete track m f s) = Some v → v = PyNone.
Proof.
  unfold on_message_delete.
  destruct (channel_id m =? track); [|by intros [= <-]].
  destruct (PyStr.contains _ _); [|by intros [= <-]].
  destruct (extract_username _) as [u|]; [|done].
  unfold_effects.
  destruct (is_tracked u s); [|by intros [= <-]].
  destruct (active_links s !! u); [|by intros [= <-]].
  destruct f as [| |r]; [done..|].
  rewrite load_bot_usernames_returns. by intros [= <-].
Qed.

Lemma start_tracking_tracked u s :
  is_tracked u s = true → start_tracking u s = Returned tt s.
Proof. intros Htr. unfold start_tracking. unfold_M. by rewrite Htr. Qed.

Lemma start_tracking_untracked u s :
  is_tracked u s = false → start_tracking u s = Returned tt (started_state u s).
Proof.
  intros Htr. unfold start_tracking. unfold_effects. by rewrite Htr.
Qed.

Lemma on_message_tracked track m s u :
  extract_username (content m) = Some u →
  is_tracked u s = true →
  on_message track m s = Returned PyNone s.
Proof.
  intros Hext Htr. unfold on_message.
  destruct (author_is_self m); [done|].
  destruct (channel_id m =? track); [|done].
  destruct (PyStr.contains _ _); [|done].
  rewrite Hext. unfold_M. by rewrite Htr.
Qed.

(* --------------------------------------------------------------------- *)
(* The observer and the reporting cycle                                   *)
(* --------------------------------------------------------------------- *)

Lemma get_active_users_reads s :
  get_active_users s = Returned (elements (active_users s)) s.
Proof. reflexivity. Qed.

Lemma event_message_records name s :
  event_message name false s
  = Returned PyNone (set_active_users (λ users, {[name]} ∪ users) s).
Proof. reflexivity. Qed.

Lemma record_all_active_users names s :
  active_users (record_all names s) = list_to_set names ∪ active_users s.
Proof.
  unfold record_all. revert s. induction names as [|name names IH]; intros s; simpl.
  - by rewrite (left_id_L ∅ (∪)).
  - rewrite IH. destruct s. simpl.
    by rewrite (assoc_L (∪)), (comm_L (∪) (list_to_set names)).
Qed.

Lemma record_all_frame names s :
  record_all names s
  = set_active_users (λ _, active_users (record_all names s)) s.
Proof.
  unfold record_all. revert s. induction names as [|name names IH]; intros s; simpl.
  - by destruct s.
  - rewrite IH at 1. by destruct s.
Qed.

Lemma elem_of_filtered_users x active bots :
  x ∈ filtered_users active bots ↔ (PyStr.lower x ∉ bots) ∧ x ∈ active.
Proof.
  unfold filtered_users.
  apply (list_elem_of_filter (λ user, PyStr.lower user ∉ bots)).
Qed.

Lemma NoDup_reported_users s : NoDup (reported_users s).
Proof. unfold reported_users, filtered_users. apply NoDup_filter, NoDup_elements. Qed.

Lemma post_viewers_list_report_tracked u stream_data s :
  is_tracked u s = true →
  post_viewers_list_report u stream_data s = Returned tt (reported_state u stream_data s).
Proof.
  intros Htr. unfold post_viewers_list_report, reported_state, report_message.
  unfold reported_users. unfold_effects. rewrite Htr.
  destruct (elements (active_users s)) as [|x active] eqn:Hact.
  - destruct stream_data; unfold_setters; simpl;
      by rewrite <-(assoc_L (++)).
  - destruct (filtered_users (x :: active) (bot_usernames s)) as [|y ys] eqn:Hf;
      destruct stream_data; unfold_setters; simpl; rewrite ?Hf;
      by rewrite <-(assoc_L (++)).
Qed.

Lemma post_viewers_list_report_untracked u stream_data s :
  is_tracked u s = false →
  post_viewers_list_report u stream_data s = Returned tt s.
Proof. intros Htr. unfold post_viewers_list_report. unfold_M. by rewrite Htr. Qed.

(* --------------------------------------------------------------------- *)
(* The tally                                                              *)
(* --------------------------------------------------------------------- *)

Lemma get_set_eq d k v default : PyDict.get (PyDict.set d k v) k default = v.
Proof.
  induction d as [|[k' v'] d IH]; simpl.
  - by rewrite String.eqb_refl.
  - destruct (String.eqb_spec k k') as [->|Hne]; simpl.
    + by rewrite String.eqb_refl.
    + by destruct (String.eqb_spec k k').
Qed.

Lemma get_set_ne d k k' v default :
  k ≠ k' → PyDict.get (PyDict.set d k v) k' default = PyDict.get d k' default.
Proof.
  intros Hne. induction d as [|[k0 v0] d IH]; simpl.
  - by destruct (String.eqb_spec k' k) as [->|].
  - destruct (String.eqb_spec k k0) as [->|Hk]; simpl.
    + by destruct (String.eqb_spec k' k0) as [->|].
    + by rewrite IH.
Qed.

(** insertion order: a key the dict has keeps its place *)
Lemma set_existing_key d k v :
  k ∈ map fst d → map fst (PyDict.set d k v) = map fst d.
Proof.
  induction d as [|[k' v'] d IH]; simpl; intros Hin.
  - by apply elem_of_nil in Hin.
  - destruct (String.eqb_spec k k') as [->|Hne]; simpl; [done|].
    f_equal. apply IH. apply elem_of_cons in Hin as [?|?]; [done|done].
Qed.

(** insertion order: a key the dict lacks goes last *)
Lemma set_new_key d k v :
  k ∉ map fst d → PyDict.set d k v = (d ++ [(k, v)])%list.
Proof.
  induction d as [|[k' v'] d IH]; simpl; intros Hnot; [done|].
  destruct (String.eqb_spec k k') as [->|Hne].
  - exfalso. apply Hnot. by left.
  - f_equal. apply IH. intros Hin. apply Hnot. by right.
Qed.

(** one pass of lines 182-183 over a list without repetition adds one to
    the count of each of its members and leaves the other counts alone *)
Lemma track_appearances_get users d P :
  NoDup users →
  PyDict.get (track_appearances users d) P 0
  = PyDict.get d P 0 + (if bool_decide (P ∈ users) then 1 else 0).
Proof.
  intros Hnd. revert d. induction Hnd as [|user users Hnotin Hnd IH]; intros d; simpl.
  - lia.
  - rewrite IH. destruct (decide (P = user)) as [->|Hne].
    + rewrite get_set_eq, (bool_decide_eq_false_2 _ Hnotin).
      rewrite bool_decide_eq_true_2 by left. lia.
    + rewrite get_set_ne by done.
      destruct (decide (P ∈ users)) as [Hin|Hnin].
      * rewrite !bool_decide_eq_true_2; [done|by right|done].
      * rewrite !bool_decide_eq_false_2; [done| |done].
        by intros [?|?]%elem_of_cons.
Qed.

(* --------------------------------------------------------------------- *)
(* The link watcher and the registry: extraction, start, stop             *)
(* --------------------------------------------------------------------- *)

(** C9: stream-identifier extraction is partial.  A control message that
    carries the marker and has nothing, or only whitespace, after the last
    "twitch.tv/" passes the test of line 256 / 276, and
    content.split('twitch.tv/')[-1].split()[0] then raises IndexError: the
    extraction has no result, and both handlers end with the exception,
    the state untouched. *)
Theorem extract_username_partial (pre ws : string) (track : Z) (r : response) (s : State) :
  PyStr.all_space ws = true →
  PyStr.contains "twitch.tv" (pre +:+ "twitch.tv/" +:+ ws) = true
  ∧ extract_username (pre +:+ "twitch.tv/" +:+ ws) = None
  ∧ on_message track (mkMessage false track (pre +:+ "twitch.tv/" +:+ ws)) s
    = Raised IndexError s
  ∧ on_message_delete track (mkMessage false track (pre +:+ "twitch.tv/" +:+ ws)) r s
    = Raised IndexError s.
Proof.
  intros Hws.
  pose proof (PyStrFacts.contains_marker pre ws) as Hmark.
  pose proof (extract_username_blank pre ws Hws) as Hext.
  repeat split; try done.
  - unfold on_message. cbn [author_is_self channel_id content].
    by rewrite Z.eqb_refl, Hmark, Hext.
  - unfold on_message_delete. cbn [author_is_self channel_id content].
    by rewrite Z.eqb_refl, Hmark, Hext.
Qed.

Lemma extract_username_partial_witness :
  PyStr.all_space "  " = true
  ∧ extract_username ("see " +:+ "twitch.tv/" +:+ "  ") = None
  ∧ on_message 7 (mkMessage false 7 ("see " +:+ "twitch.tv/" +:+ "  ")) (initial_state [])
    = Raised IndexError (initial_state []).
Proof.
  split; [reflexivity|].
  pose proof (extract_username_partial "see " "  " 7
                (mkResponse 200 Malformed) (initial_state []) eq_refl) as H.
  split; [exact (proj1 (proj2 H))|exact (proj1 (proj2 (proj2 H)))].
Defined.

(** C4: start is idempotent.  In every state in which the identifier is
    registered, start_tracking returns with the whole state as it was
    (same registry, same tasks, nothing sent to the output surface, no join
    request), and so does on_message for a link to that identifier. *)
Theorem start_tracking_idempotent (u : string) (s : State) :
  is_tracked u s = true →
  start_tracking u s = Returned tt s
  ∧ ∀ track m, extract_username (content m) = Some u →
               on_message track m s = Returned PyNone s.
Proof.
  intros Htr. split; [by apply start_tracking_tracked|].
  intros track m Hext. by apply on_message_tracked with u.
Qed.

Lemma start_tracking_idempotent_witness :
  is_tracked "exampleUser" (started_state "exampleUser" (initial_state [])) = true
  ∧ start_tracking "exampleUser" (started_state "exampleUser" (initial_state []))
    = Returned tt (started_state "exampleUser" (initial_state [])).
Proof.
  split; [by vm_compute|].
  apply (start_tracking_idempotent "exampleUser"
           (started_state "exampleUser" (initial_state []))).
  by vm_compute.
Defined.

(** a second start right after a first changes nothing, whatever the state *)
Lemma start_tracking_twice u s :
  start_tracking u (final_state (start_tracking u s))
  = Returned tt (final_state (start_tracking u s)).
Proof.
  apply start_tracking_tracked.
  destruct (is_tracked u s) eqn:Htr.
  - by rewrite start_tracking_tracked.
  - rewrite start_tracking_untracked by done. apply is_tracked_true.
    exists (tasks_created s). unfold started_state. simpl.
    apply lookup_insert_eq.
Qed.

(** C5 (as the code has it): the delete handler hands back no boolean:
    whenever it returns it returns None, also after it stopped a session.
    In every state in which the identifier of the deleted link is not
    registered it returns with the whole state as it was: registry,
    AppearanceTally, Raid Ledger and output surface unchanged. *)
Theorem on_message_delete_untracked_noop (track : Z) (m : message) (r : response)
    (s : State) :
  (∀ v, returned_value (on_message_delete track m r s) = Some v → v = PyNone)
  ∧ ∀ u, extract_username (content m) = Some u → is_tracked u s = false →
         on_message_delete track m r s = Returned PyNone s.
Proof.
  split.
  - apply on_message_delete_returns_none.
  - intros u. apply on_message_delete_untracked.
Qed.

Lemma on_message_delete_untracked_noop_witness :
  extract_username "https://twitch.tv/exampleUser" = Some "exampleUser"
  ∧ is_tracked "exampleUser" (initial_state ["nightbot"]) = false
  ∧ on_message_delete 7 (mkMessage false 7 "https://twitch.tv/exampleUser")
      (mkResponse 200 Malformed) (initial_state ["nightbot"])
    = Returned PyNone (initial_state ["nightbot"]).
Proof.
  split; [reflexivity|]. split; [by vm_compute|].
  apply (proj2 (on_message_delete_untracked_noop 7
                  (mkMessage false 7 "https://twitch.tv/exampleUser")
                  (mkResponse 200 Malformed) (initial_state ["nightbot"]))
           "exampleUser"); by vm_compute.
Defined.

(** C5, against the claim as stated: a session is registered, the handler
    stops it, and what it hands back is None, not true. *)
Lemma on_message_delete_stop_returns_none :
  is_tracked "exampleUser" (started_state "exampleUser" (initial_state [])) = true
  ∧ is_tracked "exampleUser"
      (final_state (on_message_delete 7 (mkMessage false 7 "https://twitch.tv/exampleUser")
                      (mkResponse 200 Malformed)
                      (started_state "exampleUser" (initial_state [])))) = false
  ∧ returned_value (on_message_delete 7 (mkMessage false 7 "https://twitch.tv/exampleUser")
                      (mkResponse 200 Malformed)
                      (started_state "exampleUser" (initial_state [])))
    = Some PyNone
  ∧ PyNone ≠ PyBool true.
Proof. by vm_compute. Qed.

(* --------------------------------------------------------------------- *)
(* The stop path: summary and reload                                      *)
(* --------------------------------------------------------------------- *)

Lemma single_message_cases d :
  single_message d
  = if decide (single_appearance_users d = [])
    then "No users appeared in only one list."
    else "Users who appeared in only one list: "
         +:+ PyStr.join ", " (rev (single_appearance_users d)).
Proof. unfold single_message. by destruct (single_appearance_users d). Qed.

Lemma multi_message_cases d :
  multi_message d
  = if decide (multi_appearance_users d = [])
    then "No users appeared in more than one list."
    else "Users who appeared in multiple lists: "
         +:+ PyStr.join ", " (rev (multi_appearance_users d)).
Proof. unfold multi_message. by destruct (multi_appearance_users d). Qed.

Lemma raiders_message_cases rs :
  raiders_message rs
  = if decide (elements rs = [])
    then "No users raided the channel."
    else "Users who raided the channel: " +:+ PyStr.join ", " (elements rs).
Proof. unfold raiders_message. by destruct (elements rs). Qed.

(** the two partitions are disjoint and cover the entries the tally can
    hold, those with a count of at least 1 *)
Lemma appearance_partition d user count :
  (user, count) ∈ d → 1 ≤ count →
  (count = 1 ∧ user ∈ single_appearance_users d)
  ∨ (count > 1 ∧ user ∈ multi_appearance_users d).
Proof.
  intros Hin Hpos. unfold single_appearance_users, multi_appearance_users.
  destruct (decide (count = 1)) as [->|Hne]; [left|right]; (split; [lia|]).
  - apply (list_elem_of_fmap_2 fst _ (user, 1)).
    by apply (list_elem_of_filter (λ item : string * Z, item.2 = 1)).
  - apply (list_elem_of_fmap_2 fst _ (user, count)).
    apply (list_elem_of_filter (λ item : string * Z, item.2 > 1)). simpl.
    split; [lia|done].
Qed.

(** C3: the end-of-session summary.  When the link of a registered
    identifier is deleted, the handler sends, after the stop notice, three
    messages: the entries of the AppearanceTally with count exactly 1, then
    those with count greater than 1, each comma-joined in reverse insertion
    order or replaced by its "none" message when there is no such entry,
    then the Raid Ledger comma-joined or the "no raiders" message; and it
    leaves the AppearanceTally and the Raid Ledger empty, whatever they
    held. *)
Theorem stop_summary (track : Z) (m : message) (r : response) (s : State) (u : string) :
  channel_id m = track →
  PyStr.contains "twitch.tv" (content m) = true →
  extract_username (content m) = Some u →
  is_tracked u s = true →
  ∃ s', on_message_delete track m r s = Returned PyNone s'
    ∧ output s'
      = (output s ++
         [ "Stopped tracking " +:+ u +:+ " as the link was removed.";
           (if decide (map fst (filter (λ item, snd item = 1) (user_appearance_count s)) = [])
            then "No users appeared in only one list."
            else "Users who appeared in only one list: "
                 +:+ PyStr.join ", "
                       (rev (map fst (filter (λ item, snd item = 1)
                                        (user_appearance_count s)))));
           (if decide (map fst (filter (λ item, snd item > 1) (user_appearance_count s)) = [])
            then "No users appeared in more than one list."
            else "Users who appeared in multiple lists: "
                 +:+ PyStr.join ", "
                       (rev (map fst (filter (λ item, snd item > 1)
                                        (user_appearance_count s)))));
           (if decide (elements (raiders s) = [])
            then "No users raided the channel."
            else "Users who raided the channel: "
                 +:+ PyStr.join ", " (elements (raiders s))) ])%list
    ∧ user_appearance_count s' = []
    ∧ raiders s' = ∅.
Proof.
  intros Hch Hmark Hext [t Hlink]%is_tracked_true.
  exists (stopped_state u t r s). split; [by apply on_message_delete_tracked|].
  unfold stopped_state, summary_messages. cbn [output user_appearance_count raiders].
  rewrite single_message_cases, multi_message_cases, raiders_message_cases.
  done.
Qed.

Lemma stop_summary_witness :
  ∃ s', on_message_delete 7 (mkMessage false 7 "https://twitch.tv/exampleUser")
          (mkResponse 404 Malformed)
          (set_user_appearance_count (λ _, [("alice", 2); ("bob", 1); ("carol", 1)])
             (started_state "exampleUser" (initial_state []))) = Returned PyNone s'
    ∧ output s'
      = [ "Started tracking exampleUser.";
          "Stopped tracking exampleUser as the link was removed.";
          "Users who appeared in only one list: carol, bob";
          "Users who appeared in multiple lists: alice";
          "No users raided the channel." ]
    ∧ user_appearance_count s' = []
    ∧ raiders s' = ∅.
Proof.
  destruct (stop_summary 7 (mkMessage false 7 "https://twitch.tv/exampleUser")
              (mkResponse 404 Malformed)
              (set_user_appearance_count (λ _, [("alice", 2); ("bob", 1); ("carol", 1)])
                 (started_state "exampleUser" (initial_state [])))
              "exampleUser" eq_refl eq_refl eq_refl)
    as (s' & Hret & Hout & Htally & Hraid); [by vm_compute|].
  exists s'. repeat split; [exact Hret| |exact Htally|exact Hraid].
  rewrite Hout. by vm_compute.
Defined.

(** the reloads that return.  When the GET answers: on a response that is
    not 200, or whose text is not JSON, load_bot_usernames returns the empty
    list and raises nothing; and a stop assigns to bot_usernames what the
    reload returned, nothing of the previous list being read or kept. *)
Lemma reload_replaces_exclusion_set (track : Z) (m : message) (r : response)
    (s : State) (u : string) :
  channel_id m = track →
  PyStr.contains "twitch.tv" (content m) = true →
  extract_username (content m) = Some u →
  is_tracked u s = true →
  ∃ names,
    (∀ s0, load_bot_usernames r s0 = Returned names s0)
    ∧ (status r ≠ 200 ∨ text r = Malformed → names = [])
    ∧ bot_usernames (final_state (on_message_delete track m r s)) = names.
Proof.
  intros Hch Hmark Hext [t Hlink]%is_tracked_true.
  exists (fetched_names r). split; [apply load_bot_usernames_returns|]. split.
  - unfold fetched_names, load_bot_usernames. intros [Hst| ->].
    + apply Z.eqb_neq in Hst. by rewrite Hst.
    + by destruct (status r =? 200).
  - by rewrite (on_message_delete_tracked track m r s u t).
Qed.

Lemma reload_replaces_exclusion_set_witness :
  bot_usernames
    (final_state
       (on_message_delete 7 (mkMessage false 7 "https://twitch.tv/exampleUser")
          (mkResponse 503 (Document (Some ["streamelements"])))
          (started_state "exampleUser" (initial_state ["nightbot"])))) = [].
Proof.
  destruct (reload_replaces_exclusion_set 7
              (mkMessage false 7 "https://twitch.tv/exampleUser")
              (mkResponse 503 (Document (Some ["streamelements"])))
              (started_state "exampleUser" (initial_state ["nightbot"]))
              "exampleUser" eq_refl eq_refl eq_refl)
    as (names & _ & Hfail & Hbots); [by vm_compute|].
  rewrite Hbots. apply Hfail. left. done.
Defined.

(** C8, against the claim on the code: a reload that raises keeps the stale
    list.  When the GET of the exclusion document raises (line 47 is under
    no try, where get_twitch_stream_data and get_twitch_oauth_token catch
    aiohttp.ClientError around theirs), or the document is JSON but not an
    object (data.get, line 53, inside a try that catches JSONDecodeError
    only), load_bot_usernames raises instead of returning the empty list.
    The stop that called it ends at line 300 with that exception: the link
    is out of the registry and the stop notice is sent, but bot_usernames is
    the list of before, and the AppearanceTally and the Raid Ledger are not
    cleared. *)
Theorem reload_that_raises_keeps_stale_list (track : Z) (m : message) (f : fetch)
    (e : exn) (s : State) (u : string) :
  channel_id m = track →
  PyStr.contains "twitch.tv" (content m) = true →
  extract_username (content m) = Some u →
  is_tracked u s = true →
  fetch_exception f = Some e →
  (∀ s0, load_bot_usernames f s0 = Raised e s0)
  ∧ ∃ s', on_message_delete track m f s = Raised e s'
          ∧ bot_usernames s' = bot_usernames s
          ∧ user_appearance_count s' = user_appearance_count s
          ∧ raiders s' = raiders s
          ∧ is_tracked u s' = false
          ∧ output s'
            = (output s
               ++ ["Stopped tracking " +:+ u +:+ " as the link was removed."])%list.
Proof.
  intros Hch Hmark Hext [t Hlink]%is_tracked_true Hexn.
  split; [intros s0; by apply load_bot_usernames_raises|].
  exists (aborted_state u t s).
  split; [by apply on_message_delete_aborted|].
  unfold aborted_state, is_tracked.
  cbn [bot_usernames user_appearance_count raiders active_links output].
  repeat split. rewrite lookup_delete_eq. by apply bool_decide_eq_false_2.
Qed.

Lemma reload_that_raises_keeps_stale_list_witness :
  ∃ s', on_message_delete 7 (mkMessage false 7 "https://twitch.tv/exampleUser")
          GetFails
          (set_user_appearance_count (λ _, [("alice", 2)])
             (started_state "exampleUser" (initial_state ["nightbot"])))
        = Raised AiohttpClientError s'
        ∧ bot_usernames s' = ["nightbot"]
        ∧ user_appearance_count s' = [("alice", 2)]
        ∧ output s' = [ "Started tracking exampleUser.";
                        "Stopped tracking exampleUser as the link was removed." ].
Proof.
  destruct (reload_that_raises_keeps_stale_list 7
              (mkMessage false 7 "https://twitch.tv/exampleUser") GetFails
              AiohttpClientError
              (set_user_appearance_count (λ _, [("alice", 2)])
                 (started_state "exampleUser" (initial_state ["nightbot"])))
              "exampleUser" eq_refl eq_refl eq_refl ltac:(by vm_compute) eq_refl)
    as (_ & s' & Hret & Hbots & Htally & _ & _ & Hout).
  exists s'. split; [exact Hret|]. rewrite Hbots, Htally, Hout. by vm_compute.
Defined.

(* --------------------------------------------------------------------- *)
(* The observer's read and the exclusion filter                           *)
(* --------------------------------------------------------------------- *)

(** C1 (as the code has it): after any sequence of record(identity) calls,
    get_active_users returns each distinct identity of the set exactly once,
    without duplicates, and leaves the set as it is, so that a second read
    before any new record returns the same identities; the set is emptied by
    the clear that ends the reporting cycle (line 216), after which a read
    returns the empty sequence. *)
Theorem get_active_users_distinct (names : list string) (s : State) :
  ∃ l,
    get_active_users (record_all names s) = Returned l (record_all names s)
    ∧ NoDup l
    ∧ (∀ x, x ∈ l ↔ x ∈ names ∨ x ∈ active_users s)
    ∧ get_active_users (final_state (get_active_users (record_all names s)))
      = Returned l (record_all names s)
    ∧ returned_value
        (get_active_users (final_state (post_viewers_list_clear (record_all names s))))
      = Some [].
Proof.
  exists (elements (active_users (record_all names s))).
  split; [done|]. split; [apply NoDup_elements|]. split; [|split].
  - intros x. rewrite elem_of_elements, record_all_active_users.
    rewrite elem_of_union, elem_of_list_to_set. done.
  - done.
  - unfold post_viewers_list_clear, get_active_users. unfold_M.
    destruct (record_all names s). simpl. by rewrite elements_empty.
Qed.

(** C1, against the claim as stated: one identity is recorded, the read
    returns it, and the read repeated at once returns it again: the read
    has not emptied the set. *)
Lemma get_active_users_does_not_clear :
  returned_value (get_active_users (record_all ["alice"] (initial_state [])))
  = Some ["alice"]
  ∧ returned_value
      (get_active_users
         (final_state (get_active_users (record_all ["alice"] (initial_state [])))))
    = Some ["alice"]
  ∧ ["alice"] ≠ ([] : list string).
Proof. by vm_compute. Qed.

(** C2 (as the code has it): the filter lower-cases the participant and
    compares it with the entries as they are stored.  A participant is
    dropped exactly when its lower-cased identity is an entry; an entry in
    lower case therefore excludes every participant equal to it ignoring
    case, and an entry with an upper-case letter equals no lower-cased
    identity. *)
Theorem exclusion_lowercases_participant (active bots : list string) (x : string) :
  (x ∈ filtered_users active bots ↔ x ∈ active ∧ (PyStr.lower x ∉ bots))
  ∧ (∀ e, e ∈ bots → PyStr.lower e = e → PyStr.lower x = PyStr.lower e →
          x ∉ filtered_users active bots)
  ∧ (∀ e, PyStr.lower e ≠ e → PyStr.lower x ≠ e).
Proof.
  split; [|split].
  - rewrite elem_of_filtered_users. tauto.
  - intros e Hin He Hx. rewrite elem_of_filtered_users.
    intros [Hnot _]. apply Hnot. by rewrite Hx, He.
  - intros e He Hx. apply He. by rewrite <-Hx, PyStrFacts.lower_idemp.
Qed.

Lemma exclusion_lowercases_participant_witness :
  ("BOTUSER" ∉ filtered_users ["alice"; "BOTUSER"] ["nightbot"; "botuser"])
  ∧ PyStr.lower "BOTUSER" ≠ "BotUser".
Proof.
  pose proof (exclusion_lowercases_participant
                ["alice"; "BOTUSER"] ["nightbot"; "botuser"] "BOTUSER")
    as (_ & Hlow & Hup).
  split.
  - apply (Hlow "botuser"); [|reflexivity|reflexivity].
    apply list_elem_of_In. simpl. auto.
  - apply Hup. by vm_compute.
Defined.

(** C2, against the claim as stated: the entry "BotUser" and the participant
    "BOTUSER" are equal ignoring case, and the participant is reported. *)
Lemma mixed_case_entry_does_not_exclude :
  PyStr.lower "BOTUSER" = PyStr.lower "BotUser"
  ∧ filtered_users ["BOTUSER"] ["BotUser"] = ["BOTUSER"]
  ∧ filtered_users ["BOTUSER"] ["botuser"] = [].
Proof. by vm_compute. Qed.

(* --------------------------------------------------------------------- *)
(* The reconnection backoff                                               *)
(* --------------------------------------------------------------------- *)

(** the sleeps grow by a constant 10 seconds up to the cap: no ratio makes
    them a geometric sequence *)
Lemma backoff_not_geometric :
  ¬ ∃ ratio, ∀ attempt, 1 ≤ attempt →
      backoff_delay (attempt + 1) = Z.min (ratio * backoff_delay attempt) 60.
Proof.
  intros [ratio H]. pose proof (H 1 ltac:(lia)) as H1.
  pose proof (H 2 ltac:(lia)) as H2. unfold backoff_delay in *. simpl in *. lia.
Qed.

(** C6: the delay before the fourth attempt.  Three attempts fail; the code
    sleeps 10, 20 and 30 seconds, where an exponential backoff from a base
    of 10 seconds sleeps 10, 20 and 40. *)
Theorem reconnect_third_delay :
  reconnect [false; false; false; true] 1 = [10; 20; 30]
  ∧ map exponential_backoff [1; 2; 3] = [10; 20; 40]
  ∧ backoff_delay 3 ≠ exponential_backoff 3.
Proof. by vm_compute. Qed.

(* --------------------------------------------------------------------- *)
(* The AppearanceTally over a run                                         *)
(* --------------------------------------------------------------------- *)

Lemma on_message_tally track m s P : tally P (exec track s (MessageCreate m)) = tally P s.
Proof.
  unfold exec, step, on_message.
  destruct (author_is_self m); [done|].
  destruct (channel_id m =? track); [|done].
  destruct (PyStr.contains _ _); [|done].
  destruct (extract_username _) as [u|]; [|done].
  unfold_M. destruct (is_tracked u s) eqn:Htr; [done|]. simpl.
  unfold mbind, M_bind. by rewrite start_tracking_untracked.
Qed.

(** one delivery other than a deletion: P's count grows by one when the
    delivery is a cycle that reports P, and stays as it is otherwise *)
Lemma exec_tally track ev s P :
  is_delete ev = false →
  tally P (exec track s ev) = tally P s + (if appears P ev s then 1 else 0).
Proof.
  intros Hdel. destruct ev as [name echo|tags|m|m r|u stream_data|u]; simpl.
  - rewrite Z.add_0_r. unfold exec, step, event_message.
    destruct echo; [done|]. by destruct s.
  - rewrite Z.add_0_r. unfold exec, step, event_usernotice.
    destruct (bool_decide _); [|done]. by destruct s.
  - rewrite Z.add_0_r. apply on_message_tally.
  - done.
  - unfold exec, step. unfold mbind, M_bind.
    destruct (is_tracked u s) eqn:Htr; simpl.
    + rewrite post_viewers_list_report_tracked by done.
      unfold tally, reported_state. simpl.
      apply track_appearances_get, NoDup_reported_users.
    + rewrite post_viewers_list_report_untracked by done. simpl. lia.
  - rewrite Z.add_0_r. unfold exec, step. unfold_effects.
    destruct (is_tracked u s); [|done]. by destruct s.
Qed.

(** the run of deliveries: the count after is the count before plus the
    number of cycles in which P appeared *)
Lemma run_tally track P s evs :
  forallb (λ ev, negb (is_delete ev)) evs = true →
  tally P (run track s evs) = tally P s + appearance_cycles track P s evs.
Proof.
  unfold run. revert s. induction evs as [|ev evs IH]; intros s Hevs; simpl.
  - lia.
  - simpl in Hevs. apply andb_prop in Hevs as [Hev Hevs].
    apply negb_true_iff in Hev.
    rewrite (IH _ Hevs), (exec_tally track ev s P Hev). lia.
Qed.

(** C7: the AppearanceTally counts reporting cycles.  Over every run of
    deliveries between two stops (chat messages, raid notices, links posted,
    reporting cycles and their clears), the count of P after the run is its
    count before plus the number of cycles of the run in whose filtered
    participant list P appeared, so, from the empty tally of a session
    start, that number itself; and a cycle in which P does not appear
    leaves P's count as it is. *)
Theorem tally_counts_appearance_cycles (track : Z) (P : string) (s : State)
    (evs : list event) :
  forallb (λ ev, negb (is_delete ev)) evs = true →
  tally P (run track s evs) = tally P s + appearance_cycles track P s evs
  ∧ (user_appearance_count s = [] →
     tally P (run track s evs) = appearance_cycles track P s evs)
  ∧ ∀ u stream_data,
      P ∉ reported_users (run track s evs) →
      tally P (exec track (run track s evs) (CycleReport u stream_data))
      = tally P (run track s evs).
Proof.
  intros Hevs. split; [by apply run_tally|]. split.
  - intros Hempty. rewrite run_tally by done.
    unfold tally. rewrite Hempty. simpl. lia.
  - intros u stream_data Hnot. rewrite exec_tally by done. simpl.
    rewrite (bool_decide_eq_false_2 _ Hnot), andb_false_r. lia.
Qed.

Lemma tally_counts_appearance_cycles_witness :
  tally "alice"
    (run 7 (initial_state ["nightbot"])
       [ MessageCreate (mkMessage false 7 "https://twitch.tv/exampleUser");
         ChatMessage "alice" false; ChatMessage "Nightbot" false;
         CycleReport "exampleUser" (Some 12); CycleClear "exampleUser";
         ChatMessage "bob" false;
         CycleReport "exampleUser" (Some 15); CycleClear "exampleUser";
         ChatMessage "alice" false; ChatMessage "bob" false;
         CycleReport "exampleUser" None; CycleClear "exampleUser" ]) = 2.
Proof.
  match goal with
  | |- tally ?P (run ?track ?s ?evs) = _ =>
      pose proof (tally_counts_appearance_cycles track P s evs eq_refl)
        as (_ & Hcount & _)
  end.
  rewrite (Hcount eq_refl). by vm_compute.
Defined.

(** the counts the tally holds are at least 1 once they exist: a cycle
    writes get(user, 0) + 1 *)
Lemma track_appearances_positive users d :
  Forall (λ item, 1 ≤ snd item) d →
  Forall (λ item, 1 ≤ snd item) (track_appearances users d).
Proof.
  revert d. induction users as [|user users IH]; intros d Hd; simpl; [done|].
  apply IH. clear IH.
  assert (0 ≤ PyDict.get d user 0) as Hget.
  { induction Hd as [|[k v] d Hv Hd IHd]; simpl; [lia|].
    destruct (String.eqb user k); simpl in *; lia. }
  revert Hget. generalize (PyDict.get d user 0). intros z Hz.
  induction Hd as [|[k v] d Hv Hd IHd]; simpl.
  - repeat constructor. simpl. lia.
  - destruct (String.eqb user k); constructor; simpl in *; try done. lia.
Qed.

(* --------------------------------------------------------------------- *)
(* The observer across a stop                                             *)
(* --------------------------------------------------------------------- *)

(** no path of the delete handler touches the observer's set *)
Lemma on_message_delete_active_users track m f s :
  active_users (final_state (on_message_delete track m f s)) = active_users s.
Proof.
  destruct (channel_id m =? track) eqn:Hch;
    [|unfold on_message_delete; by rewrite Hch].
  destruct (PyStr.contains "twitch.tv" (content m)) eqn:Hmark;
    [|unfold on_message_delete; by rewrite Hch, Hmark].
  destruct (extract_username (content m)) as [u|] eqn:Hext;
    [|unfold on_message_delete; by rewrite Hch, Hmark, Hext].
  apply Z.eqb_eq in Hch. destruct (is_tracked u s) eqn:Htr.
  - apply is_tracked_true in Htr as [t Hlink]. destruct f as [| |r].
    + by rewrite (on_message_delete_aborted track m GetFails AiohttpClientError s u t).
    + by rewrite (on_message_delete_aborted track m JsonNotObject AttributeError s u t).
    + by rewrite (on_message_delete_tracked track m r s u t).
  - by rewrite (on_message_delete_untracked track m f s u).
Qed.

Lemma start_tracking_frame u s :
  is_tracked u (final_state (start_tracking u s)) = true
  ∧ active_users (final_state (start_tracking u s)) = active_users s
  ∧ bot_usernames (final_state (start_tracking u s)) = bot_usernames s.
Proof.
  destruct (is_tracked u s) eqn:Htr.
  - by rewrite start_tracking_tracked.
  - rewrite start_tracking_untracked by done. split; [|done].
    apply is_tracked_true. exists (tasks_created s). apply lookup_insert_eq.
Qed.

Lemma record_all_bot_usernames names s :
  bot_usernames (record_all names s) = bot_usernames s.
Proof. rewrite record_all_frame. by destruct s. Qed.

(* ===================================================================== *)
(* Further properties of the code                                         *)
(* ===================================================================== *)

(* --------------------------------------------------------------------- *)
(* Extraction of the stream identifier                                    *)
(* --------------------------------------------------------------------- *)

Module ExtractFacts.
Import PyStr PyStrFacts.

Lemma app_nil_r s : s +:+ EmptyString = s.
Proof. induction s as [|c s IH]; [done|]. rewrite app_cons. by f_equal. Qed.

(** a text without the separator comes back from split as one piece *)
Lemma split_go_no_sep sep cur s :
  contains sep s = false → split_go sep O cur s = [cur +:+ s].
Proof.
  revert cur. induction s as [|c s IH]; intros cur Hno.
  - simpl. by rewrite app_nil_r.
  - cbn [contains] in Hno. apply orb_false_elim in Hno as [Hstart Hrest].
    cbn [split_go]. rewrite Hstart, (IH _ Hrest), app_assoc. reflexivity.
Qed.

(** the last piece of split is what follows the last marker *)
Lemma split_go_last_piece tail :
  contains "twitch.tv/" tail = false → ∀ n pre skip cur,
  String.length pre = n → (skip ≤ String.length pre)%nat →
  last (split_go "twitch.tv/" skip cur (pre +:+ "twitch.tv/" +:+ tail)) = Some tail.
Proof.
  intros Htail n. induction n as [n IH] using lt_wf_ind.
  intros pre skip cur Hn Hskip. destruct pre as [|c pre].
  - simpl in Hskip. assert (skip = O) as -> by lia.
    rewrite !app_cons, !app_nil_l. cbn. by rewrite (split_go_no_sep _ _ _ Htail).
  - rewrite app_cons. destruct skip as [|k]; cbn [split_go].
    + destruct (startswith "twitch.tv/" (String c (pre +:+ "twitch.tv/" +:+ tail)))
        eqn:Hm.
      * destruct (decide (String.length (String c pre) < 10)%nat) as [Hlt|Hge].
        { rewrite <-app_cons, marker_no_overlap in Hm; [done|]. simpl in *; lia. }
        rewrite last_cons, (IH (String.length pre)); [done| |done|];
          simpl in *; lia.
      * apply (IH (String.length pre)); simpl in *; lia.
    + apply (IH (String.length pre)); simpl in *; lia.
Qed.

Lemma eqb_empty_app cur c :
  String.eqb (cur +:+ String c EmptyString) EmptyString = false.
Proof. by destruct cur. Qed.

(** leading whitespace yields no word *)
Lemma split_ws_go_blank ws rest :
  all_space ws = true →
  split_ws_go EmptyString (ws +:+ rest) = split_ws_go EmptyString rest.
Proof.
  induction ws as [|c ws IH]; intros Hws; [done|].
  simpl in Hws. apply andb_prop in Hws as [Hc Hws].
  rewrite app_cons. cbn [split_ws_go]. rewrite Hc. cbn. auto.
Qed.

(** a run of characters that are not whitespace is read into the word *)
Lemma split_ws_go_word cur name rest :
  no_space name = true →
  split_ws_go cur (name +:+ rest) = split_ws_go (cur +:+ name) rest.
Proof.
  revert cur. induction name as [|c name IH]; intros cur Hname.
  - by rewrite app_nil_l, app_nil_r.
  - simpl in Hname. apply andb_prop in Hname as [Hc Hname].
    apply negb_true_iff in Hc.
    rewrite app_cons. cbn [split_ws_go]. rewrite Hc, (IH _ Hname), app_assoc.
    reflexivity.
Qed.

(** a word is closed by the end of the text or by whitespace *)
Lemma split_ws_go_close cur rest :
  cur ≠ EmptyString → starts_blank rest = true →
  head (split_ws_go cur rest) = Some cur.
Proof.
  intros Hcur Hrest. apply String.eqb_neq in Hcur.
  destruct rest as [|c rest]; cbn [split_ws_go]; [by rewrite Hcur|].
  simpl in Hrest. by rewrite Hrest, Hcur.
Qed.

Lemma no_space_app s t : no_space (s +:+ t) = no_space s && no_space t.
Proof.
  induction s as [|c s IH]; [done|]. rewrite app_cons. simpl.
  by rewrite IH, andb_assoc.
Qed.

(** the words of split() are not empty and hold no whitespace *)
Lemma split_ws_go_words cur s :
  no_space cur = true →
  Forall (λ w, w ≠ EmptyString ∧ no_space w = true) (split_ws_go cur s).
Proof.
  revert cur. induction s as [|c s IH]; intros cur Hcur; cbn [split_ws_go].
  - destruct (String.eqb_spec cur EmptyString); [constructor|].
    by repeat constructor.
  - destruct (is_space c) eqn:Hc.
    + destruct (String.eqb_spec cur EmptyString); [by apply IH|].
      constructor; [done|by apply IH].
    + apply IH. rewrite no_space_app, Hcur. simpl. by rewrite Hc.
Qed.

End ExtractFacts.

(** X1: a link decodes to its name.  When what follows the last
    "twitch.tv/" of the content is ASCII text made of optional whitespace,
    then a non-empty name without whitespace that ends the content or is
    followed by whitespace, the extraction of lines 260 / 278 yields that
    name, whatever precedes the marker (earlier links included).  Past
    ASCII, str.split() knows more whitespace (U+0085, U+00A0, U+2003, ...)
    than [PyStr.is_space], and would cut such a name short. *)
Theorem extract_username_of_link (pre ws name tail : string) :
  is_ascii (ws +:+ name +:+ tail) = true →
  name ≠ EmptyString →
  no_space name = true →
  PyStr.all_space ws = true →
  starts_blank tail = true →
  PyStr.contains "twitch.tv/" (ws +:+ name +:+ tail) = false →
  extract_username (pre +:+ "twitch.tv/" +:+ ws +:+ name +:+ tail) = Some name.
Proof.
  intros _ Hname Hword Hws Htail Hlast.
  unfold extract_username, index_last, index_first, PyStr.split.
  rewrite (ExtractFacts.split_go_last_piece _ Hlast _ pre O EmptyString eq_refl)
    by lia.
  unfold PyStr.split_ws.
  rewrite ExtractFacts.split_ws_go_blank, ExtractFacts.split_ws_go_word by done.
  by apply ExtractFacts.split_ws_go_close.
Qed.

Lemma extract_username_of_link_witness :
  extract_username
    ("old twitch.tv/first and new https://www." +:+ "twitch.tv/" +:+ " "
     +:+ "exampleUser" +:+ " now")
  = Some "exampleUser".
Proof.
  apply (extract_username_of_link "old twitch.tv/first and new https://www." " "
           "exampleUser" " now"); [reflexivity|done|reflexivity..].
Defined.

(** X2: the marker without its slash.  The handlers test for "twitch.tv"
    but split on "twitch.tv/": for a content that holds no "twitch.tv/",
    split returns the content whole, and the identifier extracted is the
    first word of the message. *)
Theorem extract_username_without_slash (content : string) :
  PyStr.contains "twitch.tv/" content = false →
  PyStr.split "twitch.tv/" content = [content]
  ∧ extract_username content = index_first (PyStr.split_ws content).
Proof.
  intros Hno. unfold extract_username, index_last, PyStr.split.
  rewrite (ExtractFacts.split_go_no_sep _ _ _ Hno). by rewrite PyStrFacts.app_nil_l.
Qed.

Lemma extract_username_without_slash_witness :
  PyStr.contains "twitch.tv" "hello twitch.tv world" = true
  ∧ extract_username "hello twitch.tv world" = Some "hello".
Proof.
  split; [reflexivity|].
  rewrite (proj2 (extract_username_without_slash "hello twitch.tv world" eq_refl)).
  reflexivity.
Defined.

Lemma extract_username_word content u :
  extract_username content = Some u → u ≠ EmptyString ∧ no_space u = true.
Proof.
  unfold extract_username, index_first.
  destruct (index_last _) as [piece|]; [|done]. intros Hhead.
  pose proof (ExtractFacts.split_ws_go_words EmptyString piece eq_refl) as Hwords.
  unfold PyStr.split_ws in Hhead.
  destruct (PyStr.split_ws_go EmptyString piece) as [|w rest]; [done|].
  simpl in Hhead. injection Hhead as <-. by inversion Hwords.
Qed.

(** X3: what the extraction yields is a word: never the empty string and
    never a text with whitespace in it. *)
Theorem extract_username_is_word (content u : string) :
  extract_username content = Some u →
  u ≠ EmptyString ∧ no_space u = true.
Proof. apply extract_username_word. Qed.

Lemma extract_username_is_word_witness :
  "exampleUser" ≠ EmptyString ∧ no_space "exampleUser" = true.
Proof.
  apply (extract_username_is_word "see twitch.tv/exampleUser now"). reflexivity.
Defined.

(* --------------------------------------------------------------------- *)
(* What a delivery does, and what every run keeps                         *)
(* --------------------------------------------------------------------- *)

Lemma exec_effect track s ev : delivery_effect track s ev (exec track s ev).
Proof.
  destruct ev as [name echo|tags|m|m f|u stream_data|u]; unfold exec, step.
  - destruct echo; [apply effect_none|apply effect_record].
  - unfold event_usernotice. destruct (bool_decide _) eqn:Hraid; [|apply effect_none].
    apply bool_decide_eq_true in Hraid.
    replace (final_state _) with (raided_state tags s);
      [by apply effect_raid|by destruct s].
  - unfold on_message.
    destruct (author_is_self m) eqn:Hself; [apply effect_none|].
    destruct (channel_id m =? track) eqn:Hch; [|apply effect_none].
    destruct (PyStr.contains _ _); [|apply effect_none].
    destruct (extract_username _) as [u|] eqn:Hext; [|apply effect_none].
    unfold_M. destruct (is_tracked u s) eqn:Htr; [apply effect_none|]. simpl.
    unfold mbind, M_bind. rewrite start_tracking_untracked by done. simpl.
    apply Z.eqb_eq in Hch. by apply effect_start.
  - destruct (channel_id m =? track) eqn:Hch;
      [|unfold on_message_delete; rewrite Hch; apply effect_none].
    destruct (PyStr.contains "twitch.tv" (content m)) eqn:Hmark;
      [|unfold on_message_delete; rewrite Hch, Hmark; apply effect_none].
    destruct (extract_username (content m)) as [u|] eqn:Hext;
      [|unfold on_message_delete; rewrite Hch, Hmark, Hext; apply effect_none].
    apply Z.eqb_eq in Hch. destruct (is_tracked u s) eqn:Htr.
    + apply is_tracked_true in Htr as [t Hlink]. destruct f as [| |r].
      * rewrite (on_message_delete_aborted track m GetFails AiohttpClientError s u t)
          by done.
        by apply effect_abort.
      * rewrite (on_message_delete_aborted track m JsonNotObject AttributeError s u t)
          by done.
        by apply effect_abort.
      * rewrite (on_message_delete_tracked track m r s u t) by done.
        by apply effect_stop.
    + rewrite (on_message_delete_untracked track m f s u) by done.
      apply effect_none.
  - unfold mbind, M_bind. destruct (is_tracked u s) eqn:Htr.
    + rewrite post_viewers_list_report_tracked by done. by apply effect_report.
    + rewrite post_viewers_list_report_untracked by done. apply effect_none.
  - unfold_effects. destruct (is_tracked u s) eqn:Htr; [|apply effect_none].
    by apply effect_clear.
Qed.

(** what the initial state has and every delivery keeps, every run has *)
Lemma run_invariant track (Inv : State → Prop) s evs :
  Inv s → (∀ s' ev, Inv s' → Inv (exec track s' ev)) → Inv (run track s evs).
Proof.
  intros Hs Hstep. unfold run. revert s Hs.
  induction evs as [|ev evs IH]; intros s Hs; simpl; [done|].
  apply IH, Hstep, Hs.
Qed.

(** the registry after a delivery: as before, with one identifier more, or
    with one less *)
Lemma effect_registry track s ev s' :
  delivery_effect track s ev s' →
  (active_links s' = active_links s
   ∧ tasks_created s' = tasks_created s
   ∧ tasks_cancelled s' = tasks_cancelled s
   ∧ chat_requests s' = chat_requests s)
  ∨ (∃ m u, ev = MessageCreate m ∧ extract_username (content m) = Some u
            ∧ active_links s !! u = None ∧ s' = started_state u s)
  ∨ (∃ m f u t, ev = MessageDelete m f ∧ extract_username (content m) = Some u
                ∧ active_links s !! u = Some t
                ∧ active_links s' = delete u (active_links s)
                ∧ tasks_created s' = tasks_created s
                ∧ tasks_cancelled s' = (tasks_cancelled s ++ [t])%list
                ∧ chat_requests s' = (chat_requests s ++ [Part u])%list).
Proof.
  intros [ev'|name|tags Hraid|m u Hself Hch Hext Htr|m r u t Hch Hext Hlink
          |m f u t Hch Hext Hlink|u stream_data Htr|u Htr].
  - by left.
  - left. by destruct s.
  - by left.
  - right. left. exists m, u. by apply is_tracked_false in Htr.
  - right. right. by exists m, r, u, t.
  - right. right. by exists m, f, u, t.
  - by left.
  - left. by destruct s.
Qed.

(** X4: the identifiers of the registry are words.  In every state a run
    of deliveries reaches from the initial state, a registered identifier
    is not the empty string and holds no whitespace. *)
Theorem registered_identifiers_are_words (track : Z) (bots : list string)
    (evs : list event) (u : string) :
  is_tracked u (run track (initial_state bots) evs) = true →
  u ≠ EmptyString ∧ no_space u = true.
Proof.
  revert u.
  apply (run_invariant track
           (λ s, ∀ u, is_tracked u s = true → u ≠ EmptyString ∧ no_space u = true)).
  - intros u [t Ht]%is_tracked_true. unfold initial_state in Ht.
    cbn [active_links] in Ht. by rewrite lookup_empty in Ht.
  - intros s ev IH u [t Ht]%is_tracked_true.
    destruct (effect_registry track s ev _ (exec_effect track s ev))
      as [(Hl & _)|[(m & u0 & _ & Hext & _ & Hs')
                    |(m & f & u0 & t0 & _ & _ & _ & Hl & _)]].
    + apply IH, is_tracked_true. exists t. by rewrite <-Hl.
    + rewrite Hs' in Ht. unfold started_state in Ht. cbn [active_links] in Ht.
      apply lookup_insert_Some in Ht as [[<- _]|[_ Ht]].
      * by apply (extract_username_word (content m)).
      * apply IH, is_tracked_true. eauto.
    + rewrite Hl in Ht.
      apply lookup_delete_Some in Ht as [_ Ht]. apply IH, is_tracked_true. eauto.
Qed.

Lemma registered_identifiers_are_words_witness :
  "exampleUser" ≠ EmptyString ∧ no_space "exampleUser" = true.
Proof.
  apply (registered_identifiers_are_words 7 ["nightbot"]
           [ MessageCreate (mkMessage false 7 "watch https://twitch.tv/exampleUser !");
             ChatMessage "alice" false ]).
  by vm_compute.
Defined.

(** X5: the task handles of the registry.  In every state a run reaches
    from the initial state, the task registered for an identifier was
    created and has not been cancelled, no two identifiers share a task,
    and only created tasks were cancelled. *)
Theorem registry_tasks_consistent (track : Z) (bots : list string) (evs : list event) :
  tasks_consistent (run track (initial_state bots) evs).
Proof.
  apply (run_invariant track tasks_consistent).
  - split; [|split].
    + intros u t Ht. unfold initial_state in Ht. cbn [active_links] in Ht.
      by rewrite lookup_empty in Ht.
    + intros u u' t Ht. unfold initial_state in Ht. cbn [active_links] in Ht.
      by rewrite lookup_empty in Ht.
    + intros t Ht. by apply elem_of_nil in Ht.
  - intros s ev (Hlive & Hinj & Hcan).
    destruct (effect_registry track s ev _ (exec_effect track s ev))
      as [(Hl & Hc & Hx & _)|[(m & u0 & _ & _ & Hfree & ->)
                              |(m & f & u0 & t0 & _ & _ & Hlink & Hl & Hc & Hx & _)]].
    + unfold tasks_consistent. by rewrite Hl, Hc, Hx.
    + unfold tasks_consistent, started_state.
      cbn [active_links tasks_created tasks_cancelled]. split; [|split].
      * intros u t [[<- <-]|[_ Ht]]%lookup_insert_Some.
        -- split; [lia|]. intros Hin%Hcan. lia.
        -- destruct (Hlive u t Ht). split; [lia|done].
      * intros u u' t [[<- <-]|[Hne Ht]]%lookup_insert_Some
                      [[<- Heq]|[Hne' Ht']]%lookup_insert_Some; try done.
        -- destruct (Hlive _ _ Ht'). lia.
        -- destruct (Hlive _ _ Ht). lia.
        -- by apply (Hinj u u' t).
      * intros t Ht%Hcan. lia.
    + unfold tasks_consistent. rewrite Hl, Hc, Hx. split; [|split].
      * intros u t [Hne Ht]%lookup_delete_Some. destruct (Hlive u t Ht) as [Hlt Hnot].
        split; [done|]. intros [Hin|Hin%list_elem_of_singleton]%elem_of_app; [done|].
        subst t. apply Hne. by apply (Hinj u0 u t0).
      * intros u u' t [_ Ht]%lookup_delete_Some [_ Ht']%lookup_delete_Some.
        by apply (Hinj u u' t).
      * intros t [Hin|Hin%list_elem_of_singleton]%elem_of_app; [by apply Hcan|].
        subst t. by destruct (Hlive u0 t0 Hlink).
Qed.

Lemma joined_app u requests more :
  joined u (requests ++ more) = joined u requests + joined u more.
Proof.
  induction requests as [|[c|c] requests IH]; simpl; [done|rewrite IH; lia..].
Qed.

(** X6: joins and parts are balanced with the registry.  In every state a
    run reaches from the initial state, the chat client was asked to join
    a channel once more than to part it exactly when the identifier is
    registered, and as often otherwise. *)
Theorem joins_match_registry (track : Z) (bots : list string) (evs : list event)
    (u : string) :
  joined u (chat_requests (run track (initial_state bots) evs))
  = if is_tracked u (run track (initial_state bots) evs) then 1 else 0.
Proof.
  revert u.
  apply (run_invariant track
           (λ s, ∀ u, joined u (chat_requests s) = if is_tracked u s then 1 else 0)).
  - done.
  - intros s ev IH u.
    destruct (effect_registry track s ev _ (exec_effect track s ev))
      as [(Hl & _ & _ & Hq)|[(m & u0 & _ & _ & Hfree & ->)
                             |(m & f & u0 & t0 & _ & _ & Hlink & Hl & _ & _ & Hq)]].
    + rewrite Hq, IH. unfold is_tracked. by rewrite Hl.
    + unfold started_state, is_tracked. cbn [active_links chat_requests].
      rewrite joined_app, IH. simpl.
      destruct (String.eqb_spec u0 u) as [->|Hne].
      * rewrite lookup_insert_eq. apply is_tracked_false in Hfree.
        rewrite Hfree. rewrite bool_decide_eq_true_2 by eauto. done.
      * rewrite lookup_insert_ne by done. unfold is_tracked. lia.
    + unfold is_tracked at 1. rewrite Hl, Hq.
      rewrite joined_app, IH. simpl.
      destruct (String.eqb_spec u0 u) as [->|Hne].
      * rewrite lookup_delete_eq.
        assert (is_tracked u s = true) as -> by (apply is_tracked_true; eauto).
        rewrite bool_decide_eq_false_2; [done|]. by intros [? ?].
      * rewrite lookup_delete_ne by done. unfold is_tracked. lia.
Qed.

(* --------------------------------------------------------------------- *)
(* The tally as a dict, and the lists of the summary                      *)
(* --------------------------------------------------------------------- *)

Lemma effect_tally track s ev s' :
  delivery_effect track s ev s' →
  user_appearance_count s' = user_appearance_count s
  ∨ user_appearance_count s' = []
  ∨ user_appearance_count s'
    = track_appearances (reported_users s) (user_appearance_count s).
Proof.
  intros [ev'|name|tags Hraid|m u Hself Hch Hext Htr|m r u t Hch Hext Hlink
          |m f u t Hch Hext Hlink|u stream_data Htr|u Htr]; auto.
Qed.

Lemma set_keys_NoDup d k v :
  NoDup (map fst d) → NoDup (map fst (PyDict.set d k v)).
Proof.
  intros Hnd. destruct (decide (k ∈ map fst d)) as [Hin|Hnot].
  - by rewrite set_existing_key.
  - rewrite set_new_key, map_app by done. simpl.
    apply NoDup_app. split; [done|]. split; [|apply NoDup_singleton].
    intros x Hx ->%list_elem_of_singleton. done.
Qed.

Lemma track_appearances_NoDup users d :
  NoDup (map fst d) → NoDup (map fst (track_appearances users d)).
Proof.
  revert d. induction users as [|user users IH]; intros d Hd; simpl; [done|].
  by apply IH, set_keys_NoDup.
Qed.

Lemma tally_well_formed_run track bots evs :
  tally_well_formed (run track (initial_state bots) evs).
Proof.
  apply (run_invariant track tally_well_formed).
  - split; constructor.
  - intros s ev [Hnd Hpos]. unfold tally_well_formed.
    destruct (effect_tally track s ev _ (exec_effect track s ev)) as [->|[->| ->]].
    + done.
    + split; constructor.
    + split; [by apply track_appearances_NoDup|by apply track_appearances_positive].
Qed.

Lemma get_of_entry d P c :
  NoDup (map fst d) → (P, c) ∈ d → PyDict.get d P 0 = c.
Proof.
  induction d as [|[k v] d IH]; simpl; intros Hnd Hin.
  - by apply elem_of_nil in Hin.
  - apply NoDup_cons in Hnd as [Hk Hnd].
    apply elem_of_cons in Hin as [[= -> ->]|Hin].
    + by rewrite String.eqb_refl.
    + destruct (String.eqb_spec P k) as [->|Hne]; [|by apply IH].
      exfalso. apply Hk. by apply (list_elem_of_fmap_2 fst _ (k, c)).
Qed.

Lemma get_absent d P : P ∉ map fst d → PyDict.get d P 0 = 0.
Proof.
  induction d as [|[k v] d IH]; simpl; intros Hnot; [done|].
  destruct (String.eqb_spec P k) as [->|Hne].
  - exfalso. apply Hnot. by left.
  - apply IH. intros Hin. apply Hnot. by right.
Qed.

Lemma entry_of_get d P : P ∈ map fst d → (P, PyDict.get d P 0) ∈ d.
Proof.
  induction d as [|[k v] d IH]; simpl; intros Hin.
  - by apply elem_of_nil in Hin.
  - destruct (String.eqb_spec P k) as [->|Hne]; [by left|].
    right. apply IH. by apply elem_of_cons in Hin as [?|?].
Qed.

(** the keys that pass a test on the entries, as the comprehensions of
    lines 304-305 collect them *)
Lemma elem_of_keys_filter (test : string * Z → Prop)
    `{!∀ item, Decision (test item)} d P :
  P ∈ map fst (filter test d) ↔ ∃ c, (P, c) ∈ d ∧ test (P, c).
Proof.
  split.
  - intros ([k c] & -> & [Ht Hin]%list_elem_of_filter)%list_elem_of_fmap_1.
    by exists c.
  - intros (c & Hin & Ht). apply (list_elem_of_fmap_2 fst _ (P, c)).
    by apply list_elem_of_filter.
Qed.

Lemma keys_filter_NoDup (test : string * Z → Prop)
    `{!∀ item, Decision (test item)} d :
  NoDup (map fst d) → NoDup (map fst (filter test d)).
Proof.
  induction d as [|[k v] d IH]; [done|]. simpl. intros [Hk Hnd]%NoDup_cons.
  rewrite filter_cons. destruct (decide (test (k, v))); [|by apply IH].
  simpl. apply NoDup_cons. split; [|by apply IH].
  intros (c & Hin & _)%elem_of_keys_filter. apply Hk.
  by apply (list_elem_of_fmap_2 fst _ (k, c)).
Qed.

(** on a dict without repeated keys and with counts of at least 1, a list
    of the summary holds the keys whose count passes its test *)
Lemma summary_lists_by_count d P :
  NoDup (map fst d) → Forall (λ item, 1 ≤ snd item) d →
  (P ∈ single_appearance_users d ↔ PyDict.get d P 0 = 1)
  ∧ (P ∈ multi_appearance_users d ↔ PyDict.get d P 0 > 1)
  ∧ (P ∈ map fst d ↔ 1 ≤ PyDict.get d P 0).
Proof.
  intros Hnd Hpos. unfold single_appearance_users, multi_appearance_users.
  rewrite !elem_of_keys_filter. rewrite Forall_forall in Hpos.
  assert (∀ c, 1 ≤ c → PyDict.get d P 0 = c → (P, c) ∈ d) as Hback.
  { intros c Hc Hget. destruct (decide (P ∈ map fst d)) as [Hin|Hnot].
    - rewrite <-Hget. by apply entry_of_get.
    - rewrite get_absent in Hget by done. lia. }
  split; [|split].
  - split.
    + intros (c & Hin & Hc). simpl in Hc. subst c. by apply get_of_entry.
    + intros Hget. exists 1. split; [apply Hback; [lia|done]|done].
  - split.
    + intros (c & Hin & Hc). simpl in Hc. rewrite (get_of_entry d P c) by done. lia.
    + intros Hget. exists (PyDict.get d P 0). split; [apply Hback; [lia|done]|done].
  - split.
    + intros Hin%entry_of_get. by apply (Hpos _ Hin).
    + intros Hget. destruct (decide (P ∈ map fst d)) as [Hin|Hnot]; [done|].
      rewrite get_absent in Hget by done. lia.
Qed.

(** X7: the lists of the summary partition the tally.  In every state a run
    reaches from the initial state, no participant is named twice over the
    two lists of the end-of-session summary; a participant is in the "only
    one list" list exactly when its count is 1, in the "multiple lists" list
    exactly when its count is greater than 1, and every key of the tally is
    in one of the two. *)
Theorem summary_lists_partition (track : Z) (bots : list string) (evs : list event)
    (P : string) :
  NoDup (single_appearance_users
           (user_appearance_count (run track (initial_state bots) evs))
         ++ multi_appearance_users
              (user_appearance_count (run track (initial_state bots) evs)))
  ∧ (P ∈ single_appearance_users
           (user_appearance_count (run track (initial_state bots) evs))
     ↔ tally P (run track (initial_state bots) evs) = 1)
  ∧ (P ∈ multi_appearance_users
           (user_appearance_count (run track (initial_state bots) evs))
     ↔ tally P (run track (initial_state bots) evs) > 1)
  ∧ (P ∈ map fst (user_appearance_count (run track (initial_state bots) evs))
     ↔ P ∈ single_appearance_users
             (user_appearance_count (run track (initial_state bots) evs))
       ∨ P ∈ multi_appearance_users
               (user_appearance_count (run track (initial_state bots) evs))).
Proof.
  destruct (tally_well_formed_run track bots evs) as [Hnd Hpos].
  set (d := user_appearance_count (run track (initial_state bots) evs)) in *.
  unfold tally. fold d.
  split; [|split; [|split]].
  - apply NoDup_app. split; [by apply keys_filter_NoDup|].
    split; [|by apply keys_filter_NoDup].
    intros x Hs Hm.
    apply (summary_lists_by_count d x Hnd Hpos) in Hs.
    apply (summary_lists_by_count d x Hnd Hpos) in Hm. lia.
  - apply (summary_lists_by_count d P Hnd Hpos).
  - apply (summary_lists_by_count d P Hnd Hpos).
  - destruct (summary_lists_by_count d P Hnd Hpos) as (-> & -> & ->). lia.
Qed.

Lemma run_app track s evs more :
  run track s (evs ++ more) = run track (run track s evs) more.
Proof. unfold run. by rewrite fold_left_app. Qed.

(** X8: the summary names a participant by the cycles it appeared in.
    When a session starts from an empty tally and nothing is deleted during
    the run, the "only one list" list holds exactly the participants that
    appeared in one reporting cycle, and the "multiple lists" list exactly
    those that appeared in more than one. *)
Theorem summary_lists_by_cycles (track : Z) (bots : list string)
    (before evs : list event) (P : string) :
  user_appearance_count (run track (initial_state bots) before) = [] →
  forallb (λ ev, negb (is_delete ev)) evs = true →
  (P ∈ single_appearance_users
         (user_appearance_count (run track (initial_state bots) (before ++ evs)))
   ↔ appearance_cycles track P (run track (initial_state bots) before) evs = 1)
  ∧ (P ∈ multi_appearance_users
           (user_appearance_count (run track (initial_state bots) (before ++ evs)))
     ↔ appearance_cycles track P (run track (initial_state bots) before) evs > 1).
Proof.
  intros Hempty Hevs.
  destruct (tally_well_formed_run track bots (before ++ evs)) as [Hnd Hpos].
  pose proof (run_tally track P (run track (initial_state bots) before) evs Hevs)
    as Hcount.
  rewrite <-run_app in Hcount. unfold tally in Hcount.
  rewrite Hempty in Hcount. simpl in Hcount.
  destruct (summary_lists_by_count _ P Hnd Hpos) as (-> & -> & _).
  rewrite Hcount. split; split; lia.
Qed.

Lemma summary_lists_by_cycles_witness :
  "alice" ∈ multi_appearance_users
    (user_appearance_count
       (run 7 (initial_state ["nightbot"])
          ([ MessageCreate (mkMessage false 7 "https://twitch.tv/exampleUser") ]
           ++ [ ChatMessage "alice" false; ChatMessage "bob" false;
                CycleReport "exampleUser" None; CycleClear "exampleUser";
                ChatMessage "alice" false;
                CycleReport "exampleUser" None; CycleClear "exampleUser" ]))).
Proof.
  apply (summary_lists_by_cycles 7 ["nightbot"]
           [ MessageCreate (mkMessage false 7 "https://twitch.tv/exampleUser") ]);
    [reflexivity|reflexivity|by vm_compute].
Defined.



(* --------------------------------------------------------------------- *)
(* Raid notices                                                           *)
(* --------------------------------------------------------------------- *)

Lemma event_usernotice_raid tags s :
  msg_id tags = Some "raid" →
  event_usernotice tags s = Returned PyNone (raided_state tags s).
Proof.
  intros Hraid. unfold event_usernotice.
  rewrite bool_decide_eq_true_2 by done. by destruct s.
Qed.

(** X10: the Raid Ledger keeps a raider once.  Two raid notices with the
    same display name are both thanked on the output surface and leave one
    entry in the ledger: from an empty ledger, the summary of the stop names
    the raider once.  A notice that is not a raid changes nothing. *)
Theorem raid_notices_deduplicate (tags again : notice_tags) (s : State) :
  msg_id tags = Some "raid" →
  msg_id again = Some "raid" →
  display_name again = display_name tags →
  ∃ s', event_usernotice again (final_state (event_usernotice tags s))
        = Returned PyNone s'
    ∧ raiders s' = {[display_name tags]} ∪ raiders s
    ∧ output s'
      = (output s ++
         [ "Thanks " +:+ display_name tags +:+ " for the raid with "
             +:+ msg_param_viewerCount tags +:+ " viewers!";
           "Thanks " +:+ display_name tags +:+ " for the raid with "
             +:+ msg_param_viewerCount again +:+ " viewers!" ])%list
    ∧ (raiders s = ∅ →
       raiders_message (raiders s')
       = "Users who raided the channel: " +:+ display_name tags)
    ∧ ∀ other, msg_id other ≠ Some "raid" →
               event_usernotice other s = Returned PyNone s.
Proof.
  intros Hraid Hagain Hname.
  rewrite (event_usernotice_raid tags s Hraid). cbn [final_state].
  rewrite (event_usernotice_raid again _ Hagain).
  eexists. split; [reflexivity|].
  unfold raided_state. cbn [raiders output]. rewrite Hname.
  assert ({[display_name tags]} ∪ ({[display_name tags]} ∪ raiders s)
          = {[display_name tags]} ∪ raiders s) as Hset
    by (by rewrite (assoc_L (∪)), (idemp_L (∪))).
  split; [done|]. split; [by rewrite <-(assoc_L (++))|]. split.
  - intros Hempty. rewrite Hset, Hempty, (right_id_L ∅ (∪)).
    unfold raiders_message. by rewrite elements_singleton.
  - intros other Hother. unfold event_usernotice.
    by rewrite bool_decide_eq_false_2.
Qed.

Lemma raid_notices_deduplicate_witness :
  raiders_message
    (raiders
       (final_state
          (event_usernotice (mkTags (Some "raid") "Zed" "12")
             (final_state
                (event_usernotice (mkTags (Some "raid") "Zed" "5")
                   (initial_state []))))))
  = "Users who raided the channel: Zed".
Proof.
  destruct (raid_notices_deduplicate (mkTags (Some "raid") "Zed" "5")
              (mkTags (Some "raid") "Zed" "12") (initial_state [])
              eq_refl eq_refl eq_refl) as (s' & Hret & _ & _ & Hmsg & _).
  rewrite Hret. cbn [final_state]. by rewrite Hmsg.
Defined.

(* --------------------------------------------------------------------- *)
(* The registry over deliveries                                           *)
(* --------------------------------------------------------------------- *)

(** one delivery and the registry: an identifier is registered afterwards
    when a link to it was posted, or when it was registered and no link to
    it was deleted *)
Lemma exec_is_tracked track s ev u :
  is_tracked u (exec track s ev)
  = (is_tracked u s && negb (stops track u ev)) || starts track u ev.
Proof.
  destruct ev as [name echo|tags|m|m f|u' stream_data|u'].
  - cbn [starts stops]. rewrite andb_true_r, orb_false_r.
    unfold exec, step, event_message. destruct echo; [done|]. by destruct s.
  - cbn [starts stops]. rewrite andb_true_r, orb_false_r.
    unfold exec, step, event_usernotice. destruct (bool_decide _); [|done].
    by destruct s.
  - cbn [starts stops]. rewrite andb_true_r. unfold exec, step, on_message.
    destruct (author_is_self m); [by rewrite orb_false_r|].
    destruct (channel_id m =? track); [|by rewrite orb_false_r].
    destruct (PyStr.contains _ _); [|by rewrite orb_false_r].
    destruct (extract_username _) as [u0|]; [|by rewrite orb_false_r].
    cbn [negb andb]. unfold_M.
    destruct (is_tracked u0 s) eqn:Htr0; cbn [negb final_state].
    + destruct (decide (u0 = u)) as [->|Hne].
      * by rewrite Htr0.
      * rewrite bool_decide_eq_false_2 by congruence. by rewrite orb_false_r.
    + unfold mbind, M_bind. rewrite start_tracking_untracked by done.
      cbn [final_state]. unfold is_tracked, started_state. cbn [active_links].
      destruct (decide (u0 = u)) as [->|Hne].
      * rewrite lookup_insert_eq, (bool_decide_eq_true_2 (Some u = Some u)) by done.
        rewrite orb_true_r. by apply bool_decide_eq_true_2.
      * rewrite lookup_insert_ne by done.
        rewrite (bool_decide_eq_false_2 (Some u0 = Some u)) by congruence.
        by rewrite orb_false_r.
  - cbn [starts stops]. rewrite orb_false_r. unfold exec, step.
    destruct (channel_id m =? track) eqn:Hch;
      [|unfold on_message_delete; rewrite Hch; by rewrite andb_true_r].
    destruct (PyStr.contains "twitch.tv" (content m)) eqn:Hmark;
      [|unfold on_message_delete; rewrite Hch, Hmark; by rewrite andb_true_r].
    destruct (extract_username (content m)) as [u0|] eqn:Hext;
      [|unfold on_message_delete; rewrite Hch, Hmark, Hext; by rewrite andb_true_r].
    apply Z.eqb_eq in Hch. cbn [andb]. destruct (is_tracked u0 s) eqn:Htr0.
    + apply is_tracked_true in Htr0 as [t Hlink].
      assert (active_links (final_state (on_message_delete track m f s))
              = delete u0 (active_links s)) as Hl.
      { destruct f as [| |r].
        - by rewrite (on_message_delete_aborted track m GetFails
                        AiohttpClientError s u0 t).
        - by rewrite (on_message_delete_aborted track m JsonNotObject
                        AttributeError s u0 t).
        - by rewrite (on_message_delete_tracked track m r s u0 t). }
      unfold is_tracked at 1. rewrite Hl.
      destruct (decide (u0 = u)) as [->|Hne].
      * rewrite lookup_delete_eq, (bool_decide_eq_true_2 (Some u = Some u)) by done.
        rewrite andb_false_r. apply bool_decide_eq_false_2. by intros [? ?].
      * rewrite lookup_delete_ne by done.
        rewrite (bool_decide_eq_false_2 (Some u0 = Some u)) by congruence.
        by rewrite andb_true_r.
    + rewrite (on_message_delete_untracked track m f s u0) by done.
      cbn [final_state]. destruct (decide (u0 = u)) as [->|Hne].
      * by rewrite Htr0.
      * rewrite (bool_decide_eq_false_2 (Some u0 = Some u)) by congruence.
        by rewrite andb_true_r.
  - cbn [starts stops]. rewrite andb_true_r, orb_false_r.
    unfold exec, step. unfold mbind, M_bind.
    destruct (is_tracked u' s) eqn:Htr'.
    + by rewrite post_viewers_list_report_tracked.
    + by rewrite post_viewers_list_report_untracked.
  - cbn [starts stops]. rewrite andb_true_r, orb_false_r.
    unfold exec, step. unfold_effects. destruct (is_tracked u' s); [|done].
    by destruct s.
Qed.

(** X11: only the link watcher changes the registry.  After a delivery an
    identifier is registered exactly when a link to it was just posted, or
    it was registered and the delivery is not the deletion of a link to it;
    so a session stays registered through every run of chat messages, raid
    notices, reporting cycles and other links' posts and deletions. *)
Theorem registry_changes_by_links_only (track : Z) (s : State) (u : string) :
  (∀ ev, is_tracked u (exec track s ev)
         = (is_tracked u s && negb (stops track u ev)) || starts track u ev)
  ∧ ∀ evs, is_tracked u s = true →
           forallb (λ ev, negb (stops track u ev)) evs = true →
           is_tracked u (run track s evs) = true.
Proof.
  split; [intros ev; apply exec_is_tracked|].
  intros evs. unfold run. revert s.
  induction evs as [|ev evs IH]; intros s Htr Hevs; simpl; [done|].
  simpl in Hevs. apply andb_prop in Hevs as [Hev Hevs].
  apply IH; [|done]. by rewrite exec_is_tracked, Htr, Hev.
Qed.

Lemma registry_changes_by_links_only_witness :
  is_tracked "exampleUser"
    (run 7 (started_state "exampleUser" (initial_state []))
       [ ChatMessage "alice" false;
         CycleReport "exampleUser" None; CycleClear "exampleUser";
         MessageCreate (mkMessage false 7 "https://twitch.tv/otherUser");
         MessageDelete (mkMessage false 7 "https://twitch.tv/otherUser")
           (mkResponse 200 Malformed);
         CycleReport "exampleUser" None ]) = true.
Proof.
  apply (proj2 (registry_changes_by_links_only 7
                  (started_state "exampleUser" (initial_state [])) "exampleUser"));
    by vm_compute.
Defined.



(* --------------------------------------------------------------------- *)
(* The observer over a cycle                                              *)
(* --------------------------------------------------------------------- *)

Lemma record_all_fields names s :
  active_links (record_all names s) = active_links s
  ∧ user_appearance_count (record_all names s) = user_appearance_count s
  ∧ bot_usernames (record_all names s) = bot_usernames s
  ∧ output (record_all names s) = output s.
Proof. rewrite record_all_frame. by destruct s. Qed.

Lemma is_tracked_record_all u names s :
  is_tracked u (record_all names s) = is_tracked u s.
Proof. unfold is_tracked. by rewrite (proj1 (record_all_fields names s)). Qed.

(** X13: what is recorded between the report and the clear of a cycle is
    dropped.  The clear of line 216 empties the set whatever was added since
    the read of line 169: identities recorded in between are in no report
    and in no count, and the next report finds no active user. *)
Theorem recorded_before_clear_is_dropped (track : Z) (s : State) (u : string)
    (stream_data next_data : option Z) (names : list string) :
  is_tracked u s = true →
  active_users
    (exec track (record_all names (exec track s (CycleReport u stream_data)))
       (CycleClear u)) = ∅
  ∧ user_appearance_count
      (exec track (record_all names (exec track s (CycleReport u stream_data)))
         (CycleClear u))
    = user_appearance_count (exec track s (CycleReport u stream_data))
  ∧ exec track
      (exec track (record_all names (exec track s (CycleReport u stream_data)))
         (CycleClear u))
      (CycleReport u next_data)
    = set_output
        (λ out, (out ++ [ "No active chat users detected for " +:+ u +:+ ".";
                          stream_message u next_data ])%list)
        (exec track (record_all names (exec track s (CycleReport u stream_data)))
           (CycleClear u)).
Proof.
  intros Htr.
  assert (exec track s (CycleReport u stream_data) = reported_state u stream_data s)
    as ->.
  { unfold exec, step. unfold mbind, M_bind.
    by rewrite post_viewers_list_report_tracked. }
  set (s1 := reported_state u stream_data s).
  assert (is_tracked u (record_all names s1) = true) as Htr2
    by (by rewrite is_tracked_record_all).
  assert (exec track (record_all names s1) (CycleClear u)
          = cleared_state (record_all names s1)) as ->.
  { unfold exec, step. unfold_effects. by rewrite Htr2. }
  set (s2 := record_all names s1) in *.
  assert (is_tracked u (cleared_state s2) = true) as Htr3 by (by destruct s2).
  split; [by destruct s2|]. split.
  - transitivity (user_appearance_count s2); [by destruct s2|].
    apply record_all_fields.
  - unfold exec, step. unfold mbind, M_bind.
    rewrite post_viewers_list_report_tracked by done. cbn [final_state].
    unfold reported_state, report_message, reported_users.
    destruct s2. unfold cleared_state, set_active_users, set_output.
    cbn [active_links user_appearance_count raiders bot_usernames active_users
         output chat_requests tasks_created tasks_cancelled].
    by rewrite elements_empty.
Qed.

Lemma recorded_before_clear_is_dropped_witness :
  output
    (run 7 (started_state "exampleUser" (initial_state []))
       [ CycleReport "exampleUser" None; ChatMessage "alice" false;
         CycleClear "exampleUser"; CycleReport "exampleUser" None ])
  = [ "Started tracking exampleUser.";
      "No active chat users detected for exampleUser.";
      "exampleUser is not currently live.";
      "No active chat users detected for exampleUser.";
      "exampleUser is not currently live." ].
Proof.
  pose proof (recorded_before_clear_is_dropped 7
                (started_state "exampleUser" (initial_state [])) "exampleUser"
                None None ["alice"]) as (_ & _ & Hnext); [by vm_compute|].
  change (run 7 (started_state "exampleUser" (initial_state []))
            [ CycleReport "exampleUser" None; ChatMessage "alice" false;
              CycleClear "exampleUser"; CycleReport "exampleUser" None ])
    with (exec 7
            (exec 7 (record_all ["alice"]
                       (exec 7 (started_state "exampleUser" (initial_state []))
                          (CycleReport "exampleUser" None)))
               (CycleClear "exampleUser"))
            (CycleReport "exampleUser" None)).
  rewrite Hnext. by vm_compute.
Defined.

(** recording depends on the set of the names only *)
Lemma record_all_set names names' s :
  list_to_set names =@{gset string} list_to_set names' →
  record_all names s = record_all names' s.
Proof.
  intros Hset. rewrite (record_all_frame names), (record_all_frame names').
  by rewrite !record_all_active_users, Hset.
Qed.

(** X14: the observer is a set.  Recording is idempotent and its order is
    irrelevant: two sequences of chat messages by the same authors leave the
    same state, however often and in whatever order each author wrote; and
    an echo of the bot's own message records nothing. *)
Theorem recording_is_set_insertion (names names' : list string) (s : State) :
  (∀ name, name ∈ names ↔ name ∈ names') →
  record_all names s = record_all names' s
  ∧ ∀ name, event_message name true s = Returned PyNone s.
Proof.
  intros Hsame. split; [|done]. apply record_all_set.
  apply set_eq. intros name. by rewrite !elem_of_list_to_set.
Qed.

Lemma recording_is_set_insertion_witness :
  record_all ["alice"; "bob"; "alice"] (initial_state [])
  = record_all ["bob"; "alice"] (initial_state []).
Proof.
  apply (recording_is_set_insertion ["alice"; "bob"; "alice"] ["bob"; "alice"]).
  intros name. rewrite !elem_of_cons, !elem_of_nil. tauto.
Defined.

(* --------------------------------------------------------------------- *)
(* The exclusion filter after a reload, and a cycle without participants  *)
(* --------------------------------------------------------------------- *)

Lemma filtered_users_no_bots active : filtered_users active [] = active.
Proof.
  unfold filtered_users. induction active as [|x active IH]; [done|].
  rewrite filter_cons. destruct (decide _) as [_|Hin]; [by rewrite IH|].
  exfalso. apply Hin. apply not_elem_of_nil.
Qed.

(** X15: a failed reload switches the filter off.  When the fetch of a stop
    answers with a status other than 200 or with a text that is not JSON,
    the exclusion list is empty afterwards, and the first report of the
    session started next names every identity of the observer's set, the
    automated accounts included. *)
Theorem failed_reload_disables_filter (track : Z) (m : message) (r : response)
    (s : State) (u : string) :
  channel_id m = track →
  PyStr.contains "twitch.tv" (content m) = true →
  extract_username (content m) = Some u →
  is_tracked u s = true →
  status r ≠ 200 ∨ text r = Malformed →
  bot_usernames (final_state (on_message_delete track m r s)) = []
  ∧ ∀ chats u',
      reported_users
        (final_state
           (start_tracking u'
              (record_all chats (final_state (on_message_delete track m r s)))))
      = elements (active_users s ∪ list_to_set chats).
Proof.
  intros Hch Hmark Hext [t Hlink]%is_tracked_true Hfail.
  rewrite (on_message_delete_tracked track m r s u t) by done. cbn [final_state].
  assert (fetched_names r = []) as Hnames.
  { unfold fetched_names, load_bot_usernames. destruct Hfail as [Hst| ->].
    - apply Z.eqb_neq in Hst. by rewrite Hst.
    - by destruct (status r =? 200). }
  assert (bot_usernames (stopped_state u t r s) = []) as Hbots by done.
  split; [done|]. intros chats u'.
  destruct (start_tracking_frame u' (record_all chats (stopped_state u t r s)))
    as (_ & Husers & Hb).
  unfold reported_users.
  rewrite Hb, record_all_bot_usernames, Hbots, filtered_users_no_bots.
  rewrite Husers, record_all_active_users. cbn [stopped_state active_users].
  by rewrite (comm_L (∪)).
Qed.

Lemma failed_reload_disables_filter_witness :
  reported_users
    (final_state
       (start_tracking "exampleUser"
          (record_all ["nightbot"]
             (final_state
                (on_message_delete 7
                   (mkMessage false 7 "https://twitch.tv/exampleUser")
                   (mkResponse 500 Malformed)
                   (started_state "exampleUser" (initial_state ["nightbot"])))))))
  = ["nightbot"].
Proof.
  destruct (failed_reload_disables_filter 7
              (mkMessage false 7 "https://twitch.tv/exampleUser")
              (mkResponse 500 Malformed)
              (started_state "exampleUser" (initial_state ["nightbot"]))
              "exampleUser" eq_refl eq_refl eq_refl) as [_ Hrep];
    [by vm_compute|by left|].
  rewrite Hrep. by vm_compute.
Defined.

(** X16: a cycle with nobody to report.  A report finds no participant
    exactly when every identity of the observer's set is excluded; it then
    sends the "no active" notice when the set is empty and the "no non-bot"
    notice otherwise, and leaves the tally as it was. *)
Theorem report_without_participants (u : string) (stream_data : option Z) (s : State) :
  is_tracked u s = true →
  (reported_users s = [] ↔ ∀ x, x ∈ active_users s → PyStr.lower x ∈ bot_usernames s)
  ∧ (reported_users s = [] →
     post_viewers_list_report u stream_data s
     = Returned tt
         (set_output
            (λ out,
               (out ++
                [ (if decide (active_users s = ∅)
                   then "No active chat users detected for " +:+ u +:+ "."
                   else "No non-bot chat users detected for " +:+ u +:+ ".");
                  stream_message u stream_data ])%list) s)).
Proof.
  intros Htr. split.
  - unfold reported_users. split.
    + intros Hnone x Hx.
      destruct (decide (PyStr.lower x ∈ bot_usernames s)) as [|Hnot]; [done|].
      assert (x ∈ filtered_users (elements (active_users s)) (bot_usernames s)) as Hin
        by (apply elem_of_filtered_users; by rewrite elem_of_elements).
      rewrite Hnone in Hin. by apply elem_of_nil in Hin.
    + intros Hall.
      destruct (filtered_users _ _) as [|x rest] eqn:Hf; [done|].
      assert (x ∈ filtered_users (elements (active_users s)) (bot_usernames s)) as Hin
        by (rewrite Hf; left).
      apply elem_of_filtered_users in Hin as [Hnot Hin%elem_of_elements].
      by destruct (Hnot (Hall x Hin)).
  - intros Hnone. rewrite post_viewers_list_report_tracked by done.
    unfold reported_state, report_message. rewrite Hnone. simpl.
    destruct (decide (active_users s = ∅)) as [Hempty|Hne].
    + replace (elements (active_users s)) with (@nil string)
        by (by rewrite Hempty, elements_empty).
      by destruct s.
    + destruct (elements (active_users s)) as [|x rest] eqn:Hel; [|by destruct s].
      apply elements_empty_inv, leibniz_equiv in Hel. done.
Qed.

Lemma report_without_participants_witness :
  output
    (final_state
       (post_viewers_list_report "exampleUser" (Some 3)
          (record_all ["Nightbot"]
             (started_state "exampleUser" (initial_state ["nightbot"])))))
  = [ "Started tracking exampleUser.";
      "No non-bot chat users detected for exampleUser.";
      "exampleUser currently has 3 viewers." ].
Proof.
  rewrite (proj2 (report_without_participants "exampleUser" (Some 3)
                    (record_all ["Nightbot"]
                       (started_state "exampleUser" (initial_state ["nightbot"])))
                    ltac:(by vm_compute)) ltac:(by vm_compute)).
  by vm_compute.
Defined.

(* --------------------------------------------------------------------- *)
(* The order of the tally                                                 *)
(* --------------------------------------------------------------------- *)

Lemma filter_new_keys_snoc (keys : list string) (user : string) (rest : list string) :
  user ∉ rest →
  filter (λ x, x ∉ (keys ++ [user])%list) rest = filter (λ x, x ∉ keys) rest.
Proof.
  induction rest as [|y rest IH]; intros Hnot; [done|].
  apply not_elem_of_cons in Hnot as [Hne Hnot].
  rewrite !filter_cons, IH by done.
  destruct (decide (y ∉ (keys ++ [user])%list)) as [Hy|Hy];
    destruct (decide (y ∉ keys)) as [Hy'|Hy']; try done.
  - exfalso. apply Hy. apply dec_stable in Hy'. apply elem_of_app. by left.
  - exfalso. apply Hy. intros [Hin|Hin%list_elem_of_singleton]%elem_of_app; [done|].
    by subst.
Qed.

(** X19: the tally holds its participants in the order of their first
    report.  A cycle leaves the keys already in the tally where they are
    and appends the participants it reports for the first time, in the
    order of the report; the summary reads this order backwards. *)
Theorem track_appearances_keys (users : list string) (d : PyDict.t) :
  NoDup users →
  map fst (track_appearances users d)
  = (map fst d ++ filter (λ x, x ∉ map fst d) users)%list.
Proof.
  intros Hnd. revert d. induction Hnd as [|user users Hnot Hnd IH]; intros d.
  - simpl. by rewrite filter_nil, app_nil_r.
  - simpl. rewrite IH, filter_cons.
    destruct (decide (user ∉ map fst d)) as [Hnew|Hold].
    + rewrite set_new_key, map_app by done. simpl.
      rewrite filter_new_keys_snoc by done. by rewrite <-(assoc_L (++)).
    + apply dec_stable in Hold. by rewrite set_existing_key.
Qed.

Lemma track_appearances_keys_witness :
  map fst (track_appearances ["dee"; "ann"; "cy"] [("ann", 1); ("bob", 2)])
  = ["ann"; "bob"; "dee"; "cy"].
Proof.
  rewrite track_appearances_keys; [by vm_compute|].
  apply (bool_decide_unpack _). by vm_compute.
Defined.

(* --------------------------------------------------------------------- *)
(* Stream metadata in the cycle                                           *)
(* --------------------------------------------------------------------- *)

(** X20: a failed metadata fetch reads as an offline stream.  After a
    failed token fetch the streams request still goes out, with the header
    "Bearer None"; and when the streams request ends with a ClientError or
    with an empty data array, the cycle of a registered identifier reports
    it as not currently live, as it reports a stream that is offline.  With
    entries in the array, the viewer count of the first is reported. *)
Theorem fetch_failure_reads_as_offline
    (helix : string → string → http_answer (list stream))
    (token_answer : http_answer string) (u : string) (s : State) :
  is_tracked u s = true →
  (token_answer = ClientError →
   get_twitch_stream_data helix token_answer u
   = match helix "Bearer None" u with
     | Answer (first :: _) => Some first
     | _ => None
     end)
  ∧ (∀ header,
       header = authorization (get_twitch_oauth_token token_answer) →
       helix header u = ClientError ∨ helix header u = Answer [] →
       output (final_state (post_viewers_list_with_fetch helix token_answer u s))
       = (output s ++ [report_message u s; u +:+ " is not currently live."])%list)
  ∧ (∀ header first rest,
       header = authorization (get_twitch_oauth_token token_answer) →
       helix header u = Answer (first :: rest) →
       output (final_state (post_viewers_list_with_fetch helix token_answer u s))
       = (output s ++
          [ report_message u s;
            u +:+ " currently has " +:+ PyStr.of_int (viewer_count first)
              +:+ " viewers." ])%list).
Proof.
  intros Htr. split; [|split].
  - intros ->. unfold get_twitch_stream_data.
    change (authorization (get_twitch_oauth_token ClientError)) with "Bearer None".
    by destruct (helix "Bearer None" u) as [|[|first rest]].
  - intros header -> Hfail. unfold post_viewers_list_with_fetch.
    rewrite post_viewers_list_report_tracked by done.
    unfold get_twitch_stream_data. by destruct Hfail as [-> | ->].
  - intros header first rest -> Hfirst. unfold post_viewers_list_with_fetch.
    rewrite post_viewers_list_report_tracked by done.
    unfold get_twitch_stream_data. by rewrite Hfirst.
Qed.

Lemma fetch_failure_reads_as_offline_witness :
  output
    (final_state
       (post_viewers_list_with_fetch
          (λ header _, if String.eqb header "Bearer None" then ClientError
                       else Answer [mkStream 42])
          ClientError "exampleUser"
          (started_state "exampleUser" (initial_state []))))
  = [ "Started tracking exampleUser.";
      "No active chat users detected for exampleUser.";
      "exampleUser is not currently live." ].
Proof.
  rewrite (proj1 (proj2 (fetch_failure_reads_as_offline
                           (λ header _, if String.eqb header "Bearer None"
                                        then ClientError else Answer [mkStream 42])
                           ClientError "exampleUser"
                           (started_state "exampleUser" (initial_state []))
                           ltac:(by vm_compute)))
             "Bearer None" eq_refl (or_introl eq_refl)).
  by vm_compute.
Defined.

(* --------------------------------------------------------------------- *)
(* The observer across a stop                                             *)
(* --------------------------------------------------------------------- *)

(** only the clear of a cycle takes identities out of the observer's set *)
Lemma effect_active_users track s ev s' :
  delivery_effect track s ev s' →
  is_clear ev = false →
  active_users s ⊆ active_users s'.
Proof.
  intros [ev'|name|tags Hraid|m u Hself Hch Hext Htr|m r u t Hch Hext Hlink
          |m f u t Hch Hext Hlink|u stream_data Htr|u Htr] Hclear;
    try done.
  destruct s. unfold recorded_state. cbn [set_active_users active_users].
  set_solver.
Qed.

Lemma run_active_users track s evs :
  forallb (λ ev, negb (is_clear ev)) evs = true →
  active_users s ⊆ active_users (run track s evs).
Proof.
  unfold run. revert s. induction evs as [|ev evs IH]; intros s Hevs; simpl; [done|].
  simpl in Hevs. apply andb_prop in Hevs as [Hev%negb_true_iff Hevs].
  etrans; [|by apply IH].
  apply (effect_active_users track s ev); [apply exec_effect|done].
Qed.

(** C10 (as the code has it): a stop leaves the observer's set as it was.
    Whatever the reload of the stop does, every identity in the set when
    the stop is delivered is in it afterwards, and stays in it through
    every run of later deliveries that holds no clear of a cycle.  After
    such a run, the report of a cycle of any session then registered (so
    the first cycle of the session started next) names every such identity
    whose lower-cased form is not in the exclusion list the report reads. *)
Theorem stop_keeps_observer (track : Z) (m : message) (f : fetch) (s : State)
    (u : string) :
  channel_id m = track →
  PyStr.contains "twitch.tv" (content m) = true →
  extract_username (content m) = Some u →
  is_tracked u s = true →
  let s1 := final_state (on_message_delete track m f s) in
  active_users s1 = active_users s
  ∧ ∀ (evs : list event) (u' : string) (stream_data : option Z) (x : string),
      let s2 := run track s1 evs in
      let s3 := final_state (post_viewers_list_report u' stream_data s2) in
      forallb (λ ev, negb (is_clear ev)) evs = true →
      is_tracked u' s2 = true →
      x ∈ active_users s →
      x ∈ active_users s2
      ∧ (PyStr.lower x ∉ bot_usernames s2 →
         x ∈ reported_users s2
         ∧ output s3
           = (output s2 ++
              [ "Active users interacting in " +:+ u' +:+ ": "
                  +:+ PyStr.join ", " (reported_users s2);
                stream_message u' stream_data ])%list).
Proof.
  intros Hch Hmark Hext Htr s1.
  assert (active_users s1 = active_users s) as Hobs
    by apply on_message_delete_active_users.
  split; [done|]. intros evs u' stream_data x s2 s3 Hevs Htr' Hx.
  assert (x ∈ active_users s2) as Hx2.
  { apply (run_active_users track s1 evs Hevs). by rewrite Hobs. }
  split; [done|]. intros Hnot.
  assert (x ∈ reported_users s2) as Hrep.
  { unfold reported_users. apply elem_of_filtered_users.
    split; [done|]. by rewrite elem_of_elements. }
  split; [done|]. subst s3.
  rewrite post_viewers_list_report_tracked by done.
  unfold reported_state, report_message. cbn [final_state output].
  destruct (elements (active_users s2)) as [|y ys] eqn:Hel.
  - unfold reported_users in Hrep. rewrite Hel in Hrep.
    by apply elem_of_filtered_users in Hrep as [_ ?%elem_of_nil].
  - destruct (reported_users s2) as [|z zs]; [by apply elem_of_nil in Hrep|done].
Qed.

Lemma stop_keeps_observer_witness :
  let s := record_all ["alice"] (started_state "exampleUser" (initial_state [])) in
  let s1 :=
    final_state
      (on_message_delete 7 (mkMessage false 7 "https://twitch.tv/exampleUser")
         (mkResponse 200 (Document (Some ["nightbot"]))) s) in
  let s2 :=
    run 7 s1 [ UserNotice (mkTags (Some "raid") "carol" "12");
               MessageCreate (mkMessage false 7 "https://twitch.tv/otherUser") ] in
  let s3 := final_state (post_viewers_list_report "otherUser" None s2) in
  elements (active_users s1) = ["alice"]
  ∧ output s3
    = (output s2 ++ [ "Active users interacting in otherUser: alice";
                      "otherUser is not currently live." ])%list.
Proof.
  intros s s1 s2 s3.
  destruct (stop_keeps_observer 7 (mkMessage false 7 "https://twitch.tv/exampleUser")
              (mkResponse 200 (Document (Some ["nightbot"]))) s
              "exampleUser" eq_refl eq_refl eq_refl) as [Hobs Hrep]; [by vm_compute|].
  cbv zeta in Hobs, Hrep.
  destruct (Hrep [ UserNotice (mkTags (Some "raid") "carol" "12");
                   MessageCreate (mkMessage false 7 "https://twitch.tv/otherUser") ]
              "otherUser" None "alice") as [_ Hnamed].
  - by vm_compute.
  - by vm_compute.
  - apply (bool_decide_unpack _). by vm_compute.
  - destruct Hnamed as [_ Hout].
    + apply (bool_decide_unpack _). by vm_compute.
    + split.
      * subst s1. rewrite Hobs. by vm_compute.
      * subst s3 s2 s1. rewrite Hout. by vm_compute.
Defined.

(** C10, against the claim as stated, in three runs.  In the first,
    "nightbot" chats after the last clear of the session, the link is
    deleted and the reload lists "nightbot": the identity is still in the
    observer's set, and the first report of the session started next does
    not name it.  In the second, two sessions run, "alice" chats, the link
    of the first is deleted, and the cycle of the second reaches its clear
    before the next session is started: the first report of that session
    finds the set empty.  In the third, "alice" chats after the last clear
    of the first session, then the cycle of the second session clears the
    set: when the link of the first is deleted, "alice" is not in it. *)
Lemma recorded_identity_not_reported :
  (let s1 :=
     run 7 (initial_state [])
       [ MessageCreate (mkMessage false 7 "https://twitch.tv/exampleUser");
         ChatMessage "alice" false;
         CycleReport "exampleUser" None; CycleClear "exampleUser";
         ChatMessage "nightbot" false;
         MessageDelete (mkMessage false 7 "https://twitch.tv/exampleUser")
           (mkResponse 200 (Document (Some ["nightbot"]))) ] in
   let s2 := run 7 s1 [ MessageCreate (mkMessage false 7 "https://twitch.tv/otherUser") ] in
   let s3 := run 7 s2 [ CycleReport "otherUser" None ] in
   elements (active_users s1) = ["nightbot"]
   ∧ is_tracked "otherUser" s2 = true
   ∧ output s3
     = (output s2 ++ [ "No non-bot chat users detected for otherUser.";
                       "otherUser is not currently live." ])%list)
  ∧ (let s1 :=
       run 7 (initial_state [])
         [ MessageCreate (mkMessage false 7 "https://twitch.tv/exampleUser");
           MessageCreate (mkMessage false 7 "https://twitch.tv/secondUser");
           ChatMessage "alice" false;
           MessageDelete (mkMessage false 7 "https://twitch.tv/exampleUser")
             (mkResponse 200 (Document (Some []))) ] in
     let s2 :=
       run 7 s1
         [ CycleReport "secondUser" None; CycleClear "secondUser";
           MessageCreate (mkMessage false 7 "https://twitch.tv/otherUser") ] in
     let s3 := run 7 s2 [ CycleReport "otherUser" None ] in
     elements (active_users s1) = ["alice"]
     ∧ is_tracked "otherUser" s2 = true
     ∧ bot_usernames s2 = []
     ∧ output s3
       = (output s2 ++ [ "No active chat users detected for otherUser.";
                         "otherUser is not currently live." ])%list)
  ∧ (let s0 :=
       run 7 (initial_state [])
         [ MessageCreate (mkMessage false 7 "https://twitch.tv/exampleUser");
           MessageCreate (mkMessage false 7 "https://twitch.tv/secondUser");
           CycleReport "exampleUser" None; CycleClear "exampleUser";
           ChatMessage "alice" false;
           CycleReport "secondUser" None; CycleClear "secondUser" ] in
     let s1 :=
       run 7 s0
         [ MessageDelete (mkMessage false 7 "https://twitch.tv/exampleUser")
             (mkResponse 200 (Document (Some []))) ] in
     is_tracked "exampleUser" s0 = true
     ∧ active_users s0 = ∅
     ∧ active_users s1 = ∅).
Proof. by vm_compute. Qed.
